(** * Countdown-timer firmware: buttons.c, pwm.c, adc.c and the tasks of
    main.c

    A shallow embedding of the button debouncer and gesture detector
    (buttons.c), of the software PWM module (pwm.c), of the conversion of
    an ADC reading (adc.c) and of the application tasks (main.c), followed
    by the properties proved about them.

    Conventions.
    - A [uint16_t] or [uint8_t] object is a [Z]; every C operation that can
      leave the range is followed by the reduction modulo 2^16 or 2^8 that
      the target performs.
    - The file-scope [static] variables of a translation unit are gathered
      in one record, and a C function that updates them takes the record
      and returns the new one (with its result, when it has one).
    - The tasks of main.c run in ExtLib's state monad over a record of the
      globals they share. *)

From Stdlib Require Import ZArith List Bool String Ascii Lia.
From ExtLib Require Import Structures.Monad Structures.MonadState.
From ExtLib Require Import Data.Monads.StateMonad.
Import ListNotations.
Open Scope Z_scope.

(** ** Machine integers *)

Definition uint16 (x : Z) : Z := x mod 65536.
Definition uint8 (x : Z) : Z := x mod 256.

(** ** app.h *)

Inductive SystemState_t :=
| STATE_WAITING
| STATE_TIME_INPUT
| STATE_READY
| STATE_COUNTDOWN
| STATE_PAUSED
| STATE_COMPLETED.

Inductive ButtonId_t :=
| BUTTON_NONE
| BUTTON_PB1
| BUTTON_PB2
| BUTTON_PB3
| BUTTON_PB2_AND_PB3.

Inductive ButtonEventType_t :=
| EVENT_NONE
| EVENT_CLICK
| EVENT_LONG_PRESS
| EVENT_PRESSED
| EVENT_RELEASED.

Record ButtonEvent_t := mkButtonEvent {
  button : ButtonId_t;
  event : ButtonEventType_t
}.

Inductive UartCmdType_t :=
| UART_CMD_NONE
| UART_CMD_CHAR
| UART_CMD_ENTER
| UART_CMD_BACKSPACE
| UART_CMD_TOGGLE_INFO
| UART_CMD_TOGGLE_BLINK.

Record UartCmd_t := mkUartCmd {
  type : UartCmdType_t;
  character : ascii
}.

Definition BUTTON_QUEUE_SIZE : nat := 10.
Definition UART_RX_QUEUE_SIZE : nat := 32.

(** ** The FreeRTOS queue, as the application uses it

    A queue is the list of its items, oldest first.  [xQueueSend] with a
    block time of 0 appends the item when there is room and fails at once
    when the queue is full. *)

Module Queue.

Definition xQueueSend {A : Type} (capacity : nat) (q : list A) (item : A)
  : bool * list A :=
  if (List.length q <? capacity)%nat then (true, q ++ [item]) else (false, q).

End Queue.

(** ** buttons.c *)

Module Buttons.

Definition DEBOUNCE_COUNT : Z := 5.
Definition LONG_PRESS_THRESHOLD_MS : Z := 1000.

Record ButtonState_t := mkButtonState {
  current_state : bool;
  last_state : bool;
  raw_state : bool;
  debounce_counter : Z;
  press_duration : Z;
  click_pending : bool;
  long_press_sent : bool
}.

Definition set_current_state (v : bool) (s : ButtonState_t) :=
  mkButtonState v (last_state s) (raw_state s) (debounce_counter s)
                (press_duration s) (click_pending s) (long_press_sent s).
Definition set_last_state (v : bool) (s : ButtonState_t) :=
  mkButtonState (current_state s) v (raw_state s) (debounce_counter s)
                (press_duration s) (click_pending s) (long_press_sent s).
Definition set_raw_state (v : bool) (s : ButtonState_t) :=
  mkButtonState (current_state s) (last_state s) v (debounce_counter s)
                (press_duration s) (click_pending s) (long_press_sent s).
Definition set_debounce_counter (v : Z) (s : ButtonState_t) :=
  mkButtonState (current_state s) (last_state s) (raw_state s) v
                (press_duration s) (click_pending s) (long_press_sent s).
Definition set_press_duration (v : Z) (s : ButtonState_t) :=
  mkButtonState (current_state s) (last_state s) (raw_state s)
                (debounce_counter s) v (click_pending s) (long_press_sent s).
Definition set_click_pending (v : bool) (s : ButtonState_t) :=
  mkButtonState (current_state s) (last_state s) (raw_state s)
                (debounce_counter s) (press_duration s) v (long_press_sent s).
Definition set_long_press_sent (v : bool) (s : ButtonState_t) :=
  mkButtonState (current_state s) (last_state s) (raw_state s)
                (debounce_counter s) (press_duration s) (click_pending s) v.

(** [static void UpdateButtonState(ButtonState_t *state, bool raw_reading,
    uint16_t elapsed_ms)] *)
Definition UpdateButtonState (state : ButtonState_t) (raw_reading : bool)
           (elapsed_ms : Z) : ButtonState_t :=
  let state := set_raw_state raw_reading state in
  let state :=
    if Bool.eqb raw_reading (current_state state) then
      set_debounce_counter 0 state
    else
      let state :=
        set_debounce_counter (uint16 (debounce_counter state + 1)) state in
      if debounce_counter state >=? DEBOUNCE_COUNT then
        let state := set_last_state (current_state state) state in
        let state := set_current_state raw_reading state in
        let state := set_debounce_counter 0 state in
        if current_state state then
          let state := set_press_duration 0 state in
          set_long_press_sent false state
        else
          let state :=
            if negb (long_press_sent state) then set_click_pending true state
            else state in
          set_press_duration 0 state
      else state in
  if current_state state then
    set_press_duration (uint16 (press_duration state + elapsed_ms)) state
  else state.

(** [static bool CheckLongPress(ButtonState_t *state)] *)
Definition CheckLongPress (state : ButtonState_t) : bool * ButtonState_t :=
  if current_state state
     && (press_duration state >=? LONG_PRESS_THRESHOLD_MS)
     && negb (long_press_sent state)
  then
    let state := set_long_press_sent true state in
    let state := set_click_pending false state in
    (true, state)
  else (false, state).

(** The file-scope variables of buttons.c. *)
Record Statics := mkStatics {
  pb1_state : ButtonState_t;
  pb2_state : ButtonState_t;
  pb3_state : ButtonState_t;
  pb2_pb3_combo_click_pending : bool;
  pb2_pb3_combo_long_press_sent : bool;
  pb2_pb3_combo_duration : Z;
  pb2_was_pressed_in_combo : bool;
  pb3_was_pressed_in_combo : bool
}.

Definition set_pb1_state v (g : Statics) :=
  mkStatics v (pb2_state g) (pb3_state g) (pb2_pb3_combo_click_pending g)
            (pb2_pb3_combo_long_press_sent g) (pb2_pb3_combo_duration g)
            (pb2_was_pressed_in_combo g) (pb3_was_pressed_in_combo g).
Definition set_pb2_state v (g : Statics) :=
  mkStatics (pb1_state g) v (pb3_state g) (pb2_pb3_combo_click_pending g)
            (pb2_pb3_combo_long_press_sent g) (pb2_pb3_combo_duration g)
            (pb2_was_pressed_in_combo g) (pb3_was_pressed_in_combo g).
Definition set_pb3_state v (g : Statics) :=
  mkStatics (pb1_state g) (pb2_state g) v (pb2_pb3_combo_click_pending g)
            (pb2_pb3_combo_long_press_sent g) (pb2_pb3_combo_duration g)
            (pb2_was_pressed_in_combo g) (pb3_was_pressed_in_combo g).
Definition set_combo_click_pending v (g : Statics) :=
  mkStatics (pb1_state g) (pb2_state g) (pb3_state g) v
            (pb2_pb3_combo_long_press_sent g) (pb2_pb3_combo_duration g)
            (pb2_was_pressed_in_combo g) (pb3_was_pressed_in_combo g).
Definition set_combo_long_press_sent v (g : Statics) :=
  mkStatics (pb1_state g) (pb2_state g) (pb3_state g)
            (pb2_pb3_combo_click_pending g) v (pb2_pb3_combo_duration g)
            (pb2_was_pressed_in_combo g) (pb3_was_pressed_in_combo g).
Definition set_combo_duration v (g : Statics) :=
  mkStatics (pb1_state g) (pb2_state g) (pb3_state g)
            (pb2_pb3_combo_click_pending g)
            (pb2_pb3_combo_long_press_sent g) v
            (pb2_was_pressed_in_combo g) (pb3_was_pressed_in_combo g).
Definition set_pb2_was_pressed v (g : Statics) :=
  mkStatics (pb1_state g) (pb2_state g) (pb3_state g)
            (pb2_pb3_combo_click_pending g)
            (pb2_pb3_combo_long_press_sent g) (pb2_pb3_combo_duration g)
            v (pb3_was_pressed_in_combo g).
Definition set_pb3_was_pressed v (g : Statics) :=
  mkStatics (pb1_state g) (pb2_state g) (pb3_state g)
            (pb2_pb3_combo_click_pending g)
            (pb2_pb3_combo_long_press_sent g) (pb2_pb3_combo_duration g)
            (pb2_was_pressed_in_combo g) v.

(** What the three [PBn_Read()] macros return at one poll: [true] is
    pressed (the macros already invert the active-low pins). *)
Record Pins := mkPins {
  PB1_Read : bool;
  PB2_Read : bool;
  PB3_Read : bool
}.

(** The state [Buttons_Init] gives one button whose pin reads [r]. *)
Definition init_button (r : bool) : ButtonState_t :=
  mkButtonState r r r 0 0 false false.

(** [void Buttons_Init(void)] *)
Definition Buttons_Init (pins : Pins) : Statics :=
  mkStatics (init_button (PB1_Read pins)) (init_button (PB2_Read pins))
            (init_button (PB3_Read pins)) false false 0 false false.

(** [void Buttons_Update(uint16_t elapsed_ms)] *)
Definition Buttons_Update (g : Statics) (pins : Pins) (elapsed_ms : Z)
  : Statics :=
  let g := set_pb1_state
             (UpdateButtonState (pb1_state g) (PB1_Read pins) elapsed_ms) g in
  let g := set_pb2_state
             (UpdateButtonState (pb2_state g) (PB2_Read pins) elapsed_ms) g in
  let g := set_pb3_state
             (UpdateButtonState (pb3_state g) (PB3_Read pins) elapsed_ms) g in
  let g := if current_state (pb2_state g)
           then set_pb2_was_pressed true g else g in
  let g := if current_state (pb3_state g)
           then set_pb3_was_pressed true g else g in
  let g := if current_state (pb2_state g) || current_state (pb3_state g)
           then set_combo_duration
                  (uint16 (pb2_pb3_combo_duration g + elapsed_ms)) g
           else g in
  let g :=
    if current_state (pb2_state g) && current_state (pb3_state g) then
      if (pb2_pb3_combo_duration g >=? LONG_PRESS_THRESHOLD_MS)
         && negb (pb2_pb3_combo_long_press_sent g)
      then
        let g := set_combo_long_press_sent true g in
        let g := set_pb2_state (set_click_pending false (pb2_state g)) g in
        set_pb3_state (set_click_pending false (pb3_state g)) g
      else g
    else g in
  if negb (current_state (pb2_state g)) && negb (current_state (pb3_state g))
  then
    let g :=
      if pb2_was_pressed_in_combo g && pb3_was_pressed_in_combo g then
        if (pb2_pb3_combo_duration g >? 0)
           && (pb2_pb3_combo_duration g <? LONG_PRESS_THRESHOLD_MS)
           && negb (pb2_pb3_combo_long_press_sent g)
        then
          let g := set_combo_click_pending true g in
          let g := set_pb2_state (set_click_pending false (pb2_state g)) g in
          set_pb3_state (set_click_pending false (pb3_state g)) g
        else g
      else g in
    let g := set_combo_duration 0 g in
    let g := set_combo_long_press_sent false g in
    let g := set_pb2_was_pressed false g in
    set_pb3_was_pressed false g
  else g.

(** [bool Buttons_IsPB1Clicked(void)] *)
Definition Buttons_IsPB1Clicked (g : Statics) : bool * Statics :=
  if click_pending (pb1_state g)
  then (true, set_pb1_state (set_click_pending false (pb1_state g)) g)
  else (false, g).

(** [bool Buttons_IsPB2Clicked(void)] *)
Definition Buttons_IsPB2Clicked (g : Statics) : bool * Statics :=
  if click_pending (pb2_state g)
  then (true, set_pb2_state (set_click_pending false (pb2_state g)) g)
  else (false, g).

(** [bool Buttons_IsPB3Clicked(void)] *)
Definition Buttons_IsPB3Clicked (g : Statics) : bool * Statics :=
  if click_pending (pb3_state g)
  then (true, set_pb3_state (set_click_pending false (pb3_state g)) g)
  else (false, g).

(** [bool Buttons_ArePB2AndPB3Pressed(void)] *)
Definition Buttons_ArePB2AndPB3Pressed (g : Statics) : bool :=
  current_state (pb2_state g) && current_state (pb3_state g).

(** [bool Buttons_IsPB3LongPress(void)] *)
Definition Buttons_IsPB3LongPress (g : Statics) : bool * Statics :=
  let (r, s) := CheckLongPress (pb3_state g) in (r, set_pb3_state s g).

(** [bool Buttons_IsPB2AndPB3LongPress(void)] *)
Definition Buttons_IsPB2AndPB3LongPress (g : Statics) : bool * Statics :=
  if current_state (pb2_state g) && current_state (pb3_state g)
     && (pb2_pb3_combo_duration g >=? LONG_PRESS_THRESHOLD_MS)
     && negb (pb2_pb3_combo_long_press_sent g)
  then (true, set_combo_long_press_sent true g)
  else (false, g).

(** [bool Buttons_IsPB2AndPB3Click(void)] *)
Definition Buttons_IsPB2AndPB3Click (g : Statics) : bool * Statics :=
  if pb2_pb3_combo_click_pending g
  then (true, set_combo_click_pending false g)
  else (false, g).

Definition Buttons_IsPB1Pressed (g : Statics) := current_state (pb1_state g).
Definition Buttons_IsPB2Pressed (g : Statics) := current_state (pb2_state g).
Definition Buttons_IsPB3Pressed (g : Statics) := current_state (pb3_state g).

(** [void Buttons_ClearEvents(void)] *)
Definition Buttons_ClearEvents (g : Statics) : Statics :=
  let g := set_pb1_state (set_click_pending false (pb1_state g)) g in
  let g := set_pb2_state (set_click_pending false (pb2_state g)) g in
  let g := set_pb3_state (set_click_pending false (pb3_state g)) g in
  let g := set_combo_click_pending false g in
  let g := set_pb1_state (set_long_press_sent true (pb1_state g)) g in
  let g := set_pb2_state (set_long_press_sent true (pb2_state g)) g in
  let g := set_pb3_state (set_long_press_sent true (pb3_state g)) g in
  set_combo_long_press_sent true g.

(** [xQueueSend(xButtonQueue, &event, 0)] on the button queue. *)
Definition send (q : list ButtonEvent_t) (b : ButtonId_t)
           (e : ButtonEventType_t) : bool * list ButtonEvent_t :=
  Queue.xQueueSend BUTTON_QUEUE_SIZE q (mkButtonEvent b e).

(** [bool Buttons_SendPendingEvents(void)]: the result, the statics and
    [xButtonQueue] after the call. *)
Definition Buttons_SendPendingEvents (g : Statics) (q : list ButtonEvent_t)
  : bool * Statics * list ButtonEvent_t :=
  if pb2_pb3_combo_click_pending g then
    let g := set_combo_click_pending false g in
    let (result, q) := send q BUTTON_PB2_AND_PB3 EVENT_CLICK in
    (result, g, q)
  else
    let (r, g) := Buttons_IsPB2AndPB3LongPress g in
    if r then
      let (result, q) := send q BUTTON_PB2_AND_PB3 EVENT_LONG_PRESS in
      (result, g, q)
    else if click_pending (pb1_state g) then
      let g := set_pb1_state (set_click_pending false (pb1_state g)) g in
      let (result, q) := send q BUTTON_PB1 EVENT_CLICK in
      (result, g, q)
    else
      let (r, s) := CheckLongPress (pb3_state g) in
      let g := set_pb3_state s g in
      if r then
        let (result, q) := send q BUTTON_PB3 EVENT_LONG_PRESS in
        (result, g, q)
      else if click_pending (pb3_state g) then
        let g := set_pb3_state (set_click_pending false (pb3_state g)) g in
        let (result, q) := send q BUTTON_PB3 EVENT_CLICK in
        (result, g, q)
      else if click_pending (pb2_state g) then
        let g := set_pb2_state (set_click_pending false (pb2_state g)) g in
        let (result, q) := send q BUTTON_PB2 EVENT_CLICK in
        (result, g, q)
      else (false, g, q).

End Buttons.

(** ** pwm.c *)

Module PWM.

Definition PWM_RESOLUTION : Z := 100.

(** The file-scope variables of pwm.c, with the Timer2 run and interrupt
    enable bits and the LED2 latch that its functions drive. *)
Record Statics := mkStatics {
  pwm_duty_cycle : Z;
  pwm_counter : Z;
  pwm_output_enabled : bool;
  pulse_phase : Z;
  T2CON_TON : bool;
  IEC0_T2IE : bool;
  LED2 : bool
}.

Definition set_pwm_duty_cycle v (p : Statics) :=
  mkStatics v (pwm_counter p) (pwm_output_enabled p) (pulse_phase p)
            (T2CON_TON p) (IEC0_T2IE p) (LED2 p).
Definition set_pwm_counter v (p : Statics) :=
  mkStatics (pwm_duty_cycle p) v (pwm_output_enabled p) (pulse_phase p)
            (T2CON_TON p) (IEC0_T2IE p) (LED2 p).
Definition set_pwm_output_enabled v (p : Statics) :=
  mkStatics (pwm_duty_cycle p) (pwm_counter p) v (pulse_phase p)
            (T2CON_TON p) (IEC0_T2IE p) (LED2 p).
Definition set_pulse_phase v (p : Statics) :=
  mkStatics (pwm_duty_cycle p) (pwm_counter p) (pwm_output_enabled p) v
            (T2CON_TON p) (IEC0_T2IE p) (LED2 p).
Definition set_T2CON_TON v (p : Statics) :=
  mkStatics (pwm_duty_cycle p) (pwm_counter p) (pwm_output_enabled p)
            (pulse_phase p) v (IEC0_T2IE p) (LED2 p).
Definition set_IEC0_T2IE v (p : Statics) :=
  mkStatics (pwm_duty_cycle p) (pwm_counter p) (pwm_output_enabled p)
            (pulse_phase p) (T2CON_TON p) v (LED2 p).
Definition set_LED2 v (p : Statics) :=
  mkStatics (pwm_duty_cycle p) (pwm_counter p) (pwm_output_enabled p)
            (pulse_phase p) (T2CON_TON p) (IEC0_T2IE p) v.

(** [static const uint8_t sine_table[16]] *)
Definition sine_table : list Z :=
  [0; 5; 20; 39; 59; 78; 91; 98;
   100; 98; 91; 78; 59; 39; 20; 5].

(** The initializers of the file-scope variables; the timer is stopped
    and the LED dark at reset. *)
Definition at_reset : Statics := mkStatics 0 0 true 0 false false false.

(** [void _T2Interrupt(void)] *)
Definition T2Interrupt (p : Statics) : Statics :=
  let p := set_pwm_counter (uint8 (pwm_counter p + 1)) p in
  let p := if pwm_counter p >=? PWM_RESOLUTION
           then set_pwm_counter 0 p else p in
  if pwm_output_enabled p && (pwm_counter p <? pwm_duty_cycle p)
  then set_LED2 true p
  else set_LED2 false p.

(** [void PWM_Init(void)] *)
Definition PWM_Init (p : Statics) : Statics :=
  let p := set_LED2 false p in
  let p := set_T2CON_TON false p in
  let p := set_IEC0_T2IE true p in
  let p := set_pwm_duty_cycle 0 p in
  let p := set_pwm_counter 0 p in
  set_pwm_output_enabled true p.

(** [void PWM_Start(void)] *)
Definition PWM_Start (p : Statics) : Statics :=
  let p := set_pwm_counter 0 p in
  let p := set_IEC0_T2IE true p in
  set_T2CON_TON true p.

(** [void PWM_Stop(void)] *)
Definition PWM_Stop (p : Statics) : Statics :=
  let p := set_T2CON_TON false p in
  let p := set_IEC0_T2IE false p in
  set_LED2 false p.

(** [void PWM_SetDutyCycle(uint8_t duty_percent)]; the argument is
    converted to [uint8_t] by the call. *)
Definition PWM_SetDutyCycle (duty_percent : Z) (p : Statics) : Statics :=
  let duty_percent := uint8 duty_percent in
  let duty_percent := if duty_percent >? 100 then 100 else duty_percent in
  set_pwm_duty_cycle duty_percent p.

(** [uint8_t PWM_GetDutyCycle(void)] *)
Definition PWM_GetDutyCycle (p : Statics) : Z := pwm_duty_cycle p.

(** [void PWM_SetOutputEnabled(bool enabled)] *)
Definition PWM_SetOutputEnabled (enabled : bool) (p : Statics) : Statics :=
  let p := set_pwm_output_enabled enabled p in
  if negb enabled then set_LED2 false p else p.

(** [bool PWM_IsOutputEnabled(void)] *)
Definition PWM_IsOutputEnabled (p : Statics) : bool := pwm_output_enabled p.

(** [void PWM_UpdatePulse(uint16_t elapsed_ms, uint16_t period_ms)].
    The product is formed in 32 bits, where it cannot overflow; a period
    of 0 divides by zero, which has no defined result: [None]. *)
Definition PWM_UpdatePulse (elapsed_ms period_ms : Z) (p : Statics)
  : option Statics :=
  let elapsed_ms := uint16 elapsed_ms in
  let period_ms := uint16 period_ms in
  if period_ms =? 0 then None
  else
    let phase_increment := (elapsed_ms * 65536) mod 2 ^ 32 / period_ms in
    let p := set_pulse_phase
               (uint16 (pulse_phase p + uint16 phase_increment)) p in
    let table_index := uint8 (Z.shiftr (pulse_phase p) 12) in
    Some (set_pwm_duty_cycle (nth (Z.to_nat table_index) sine_table 0) p).

(** [void PWM_ResetPulse(void)] *)
Definition PWM_ResetPulse (p : Statics) : Statics :=
  let p := set_pulse_phase 0 p in
  set_pwm_duty_cycle (nth 0%nat sine_table 0) p.

(** One call of the module's interface, or one Timer2 interrupt. *)
Inductive Call :=
| CallInit
| CallStart
| CallStop
| CallSetDutyCycle (duty_percent : Z)
| CallSetOutputEnabled (enabled : bool)
| CallUpdatePulse (elapsed_ms period_ms : Z)
| CallResetPulse
| CallT2Interrupt.

Definition call (c : Call) (p : Statics) : option Statics :=
  match c with
  | CallInit => Some (PWM_Init p)
  | CallStart => Some (PWM_Start p)
  | CallStop => Some (PWM_Stop p)
  | CallSetDutyCycle d => Some (PWM_SetDutyCycle d p)
  | CallSetOutputEnabled e => Some (PWM_SetOutputEnabled e p)
  | CallUpdatePulse e t => PWM_UpdatePulse e t p
  | CallResetPulse => Some (PWM_ResetPulse p)
  | CallT2Interrupt => Some (T2Interrupt p)
  end.

(** A sequence of calls, stopping at the first one without a result. *)
Fixpoint calls (cs : list Call) (p : Statics) : option Statics :=
  match cs with
  | [] => Some p
  | c :: cs' =>
      match call c p with
      | Some p' => calls cs' p'
      | None => None
      end
  end.

(** The calls without a result: [PWM_UpdatePulse] with a period of 0. *)
Definition divides_by_zero (c : Call) : bool :=
  match c with
  | CallUpdatePulse _ period_ms => uint16 period_ms =? 0
  | _ => false
  end.

End PWM.

(** ** main.c *)

Module App.

Import MonadNotation.
Local Open Scope monad_scope.

Definition CR : ascii := ascii_of_nat 13.
Definition LF : ascii := ascii_of_nat 10.
Definition BS : ascii := ascii_of_nat 8.
Definition DEL : ascii := ascii_of_nat 127.
Definition NUL : ascii := Ascii.zero.
Definition CRLF : string := String CR (String LF EmptyString).

(** The globals of main.c that the tasks below read or write, and what
    they drive.
    - [terminal]: the strings handed to the UART, oldest first.
    - [delayed_ms]: the sum of the periods passed to [vTaskDelay].
    - [contention]: the results of the coming [xSemaphoreTake] calls on the
      three mutexes, in call order; [false] is a wait that expired after
      its 100 ms.  Once the list is used up the mutexes are free. *)
Record World := mkWorld {
  g_SystemState : SystemState_t;
  g_CountdownSeconds : Z;
  xButtonQueue : list ButtonEvent_t;
  pwm : PWM.Statics;
  LED1 : bool;
  terminal : list string;
  delayed_ms : Z;
  contention : list bool
}.

Definition set_g_SystemState v (w : World) :=
  mkWorld v (g_CountdownSeconds w) (xButtonQueue w) (pwm w) (LED1 w)
          (terminal w) (delayed_ms w) (contention w).
Definition set_g_CountdownSeconds v (w : World) :=
  mkWorld (g_SystemState w) v (xButtonQueue w) (pwm w) (LED1 w)
          (terminal w) (delayed_ms w) (contention w).
Definition set_pwm v (w : World) :=
  mkWorld (g_SystemState w) (g_CountdownSeconds w) (xButtonQueue w) v
          (LED1 w) (terminal w) (delayed_ms w) (contention w).
Definition set_LED1 v (w : World) :=
  mkWorld (g_SystemState w) (g_CountdownSeconds w) (xButtonQueue w) (pwm w)
          v (terminal w) (delayed_ms w) (contention w).
Definition set_terminal v (w : World) :=
  mkWorld (g_SystemState w) (g_CountdownSeconds w) (xButtonQueue w) (pwm w)
          (LED1 w) v (delayed_ms w) (contention w).
Definition set_delayed_ms v (w : World) :=
  mkWorld (g_SystemState w) (g_CountdownSeconds w) (xButtonQueue w) (pwm w)
          (LED1 w) (terminal w) v (contention w).
Definition set_contention v (w : World) :=
  mkWorld (g_SystemState w) (g_CountdownSeconds w) (xButtonQueue w) (pwm w)
          (LED1 w) (terminal w) (delayed_ms w) v.

(** A task body: a computation on the shared globals. *)
Definition Task : Type -> Type := state World.

Definition update (f : World -> World) : Task unit :=
  w <- get ;; put (f w).

(** [xSemaphoreTake(mutex, pdMS_TO_TICKS(100)) == pdTRUE] *)
Definition xSemaphoreTake : Task bool :=
  w <- get ;;
  match contention w with
  | [] => ret true
  | b :: rest => put (set_contention rest w) ;; ret b
  end.

(** [xSemaphoreGive(mutex)] *)
Definition xSemaphoreGive : Task unit := ret tt.

(** [vTaskDelay(pdMS_TO_TICKS(ms))] *)
Definition vTaskDelay (ms : Z) : Task unit :=
  update (fun w => set_delayed_ms (delayed_ms w + ms) w).

(** [Disp2String(str)] and [XmitUART2(c, 1)] of the UART driver. *)
Definition Disp2String (str : string) : Task unit :=
  update (fun w => set_terminal (terminal w ++ [str]) w).

Definition XmitUART2 (c : ascii) : Task unit :=
  update (fun w => set_terminal (terminal w ++ [String c EmptyString]) w).

(** [static void SafeDisp2String(const char *str)] *)
Definition SafeDisp2String (str : string) : Task unit :=
  ok <- xSemaphoreTake ;;
  if ok then Disp2String str ;; xSemaphoreGive else ret tt.

Definition LED1_On : Task unit := update (set_LED1 true).
Definition LED1_Off : Task unit := update (set_LED1 false).

(** A call into pwm.c. *)
Definition in_pwm (f : PWM.Statics -> PWM.Statics) : Task unit :=
  update (fun w => set_pwm (f (pwm w)) w).

(** [if (xSemaphoreTake(xStateMutex, ...) == pdTRUE)
       { g_SystemState = v; xSemaphoreGive(xStateMutex); }] *)
Definition write_SystemState (v : SystemState_t) : Task unit :=
  ok <- xSemaphoreTake ;;
  if ok then update (set_g_SystemState v) ;; xSemaphoreGive else ret tt.

(** *** The receive interrupt *)

(** How [_U2RXInterrupt] classifies the received character. *)
Definition U2RX_classify (received : ascii) : UartCmd_t :=
  if (received =? CR)%char || (received =? LF)%char then
    mkUartCmd UART_CMD_ENTER received
  else if (received =? BS)%char || (received =? DEL)%char then
    mkUartCmd UART_CMD_BACKSPACE received
  else
    mkUartCmd UART_CMD_CHAR received.

(** *** The C library on character arrays

    An array of [char] is the list of its elements; a string in it runs
    to the first [NUL]. *)

Definition is_digit (c : ascii) : bool :=
  let n := N_of_ascii c in (48 <=? n)%N && (n <=? 57)%N.

Definition is_space (c : ascii) : bool :=
  let n := N_of_ascii c in (n =? 32)%N || ((9 <=? n)%N && (n <=? 13)%N).

Fixpoint strchr (s : list ascii) (c : ascii) : option nat :=
  match s with
  | [] => None
  | x :: s' =>
      if (x =? c)%char then Some 0%nat
      else if (x =? NUL)%char then None
      else option_map S (strchr s' c)
  end.

Fixpoint digits_value (acc : Z) (s : list ascii) : Z :=
  match s with
  | [] => acc
  | x :: s' =>
      if is_digit x
      then digits_value (acc * 10 + (Z.of_N (N_of_ascii x) - 48)) s'
      else acc
  end.

Fixpoint skip_spaces (s : list ascii) : list ascii :=
  match s with
  | x :: s' => if is_space x then skip_spaces s' else s
  | [] => []
  end.

(** [atoi]: white space, an optional sign, then decimal digits.  The
    value is the mathematical one; C leaves the result undefined when it
    does not fit [int]. *)
Definition atoi (s : list ascii) : Z :=
  match skip_spaces s with
  | x :: s' =>
      if (x =? "-")%char then - digits_value 0 s'
      else if (x =? "+")%char then digits_value 0 s'
      else digits_value 0 (x :: s')
  | [] => 0
  end.

(** [a[i] = c] *)
Definition store (i : nat) (c : ascii) (a : list ascii) : list ascii :=
  firstn i a ++ c :: skipn (S i) a.

(** *** vTimeInputTask: from the prompt to the end of the input loop *)

Definition sizeof_input_buffer : nat := 16.

(** The locals of [vTimeInputTask] that the input loop uses. *)
Record InputLocals := mkInputLocals {
  input_buffer : list ascii;
  input_index : nat;
  got_valid_time : bool
}.

(** After [memset(input_buffer, 0, sizeof(input_buffer)); input_index = 0;
    got_valid_time = false;]. *)
Definition input_reset : InputLocals :=
  mkInputLocals (repeat NUL sizeof_input_buffer) 0 false.

Definition msg_invalid_time : string :=
  (CRLF ++ "Invalid time." ++ CRLF)%string.
Definition msg_invalid_format : string :=
  (CRLF ++ "Invalid format. Use MM:SS" ++ CRLF)%string.
Definition msg_time_set : string :=
  (CRLF ++ "Time set! Press PB2+PB3 to start (long press to clear)."
        ++ CRLF)%string.
Definition msg_erase : string :=
  String BS (String " " (String BS EmptyString)).

(** The body of [if (xQueueReceive(xUartRxQueue, &uartCmd, ...) == pdTRUE)]
    in the input loop, for the command received. *)
Definition on_uart_cmd (uartCmd : UartCmd_t) (l : InputLocals)
  : Task InputLocals :=
  match type uartCmd with
  | UART_CMD_CHAR =>
      if is_digit (character uartCmd) || (character uartCmd =? ":")%char
      then
        if (input_index l <? sizeof_input_buffer - 1)%nat then
          let buf := store (input_index l) (character uartCmd)
                           (input_buffer l) in
          let idx := S (input_index l) in
          let buf := store idx NUL buf in
          XmitUART2 (character uartCmd) ;;
          ret (mkInputLocals buf idx (got_valid_time l))
        else ret l
      else ret l
  | UART_CMD_BACKSPACE =>
      if (0 <? input_index l)%nat then
        let idx := pred (input_index l) in
        let buf := store idx NUL (input_buffer l) in
        SafeDisp2String msg_erase ;;
        ret (mkInputLocals buf idx (got_valid_time l))
      else ret l
  | UART_CMD_ENTER =>
      if (0 <? input_index l)%nat then
        match strchr (input_buffer l) ":" with
        | Some colon_pos =>
            let buf := store colon_pos NUL (input_buffer l) in
            let minutes := uint16 (atoi buf) in
            let seconds := uint16 (atoi (skipn (S colon_pos) buf)) in
            if (seconds <? 60) && ((minutes >? 0) || (seconds >? 0)) then
              let total_seconds := uint16 (minutes * 60 + seconds) in
              ok <- xSemaphoreTake ;;
              (if ok then
                 update (set_g_CountdownSeconds total_seconds) ;;
                 xSemaphoreGive
               else ret tt) ;;
              write_SystemState STATE_READY ;;
              SafeDisp2String msg_time_set ;;
              ret (mkInputLocals buf (input_index l) true)
            else
              SafeDisp2String msg_invalid_time ;;
              ret (mkInputLocals buf (input_index l) (got_valid_time l))
        | None =>
            SafeDisp2String msg_invalid_format ;;
            ret l
        end
      else ret l
  | _ => ret l
  end.

(** [while (!got_valid_time) { ... }] over the commands that
    [xQueueReceive] returns, in order; a receive that times out changes
    nothing, and when the commands run out the task is left waiting in
    the loop. *)
Fixpoint input_loop (cmds : list UartCmd_t) (l : InputLocals)
  : Task InputLocals :=
  if got_valid_time l then ret l
  else
    match cmds with
    | [] => ret l
    | c :: cmds' => l' <- on_uart_cmd c l ;; input_loop cmds' l'
    end.

(** The input loop from its start, fed the characters that arrive at the
    UART. *)
Definition enter_time (received : list ascii) : Task InputLocals :=
  input_loop (map U2RX_classify received) input_reset.

(** *** vCountdownTask *)

(** [static void FormatTime(uint16_t seconds, char *buffer)]: the string
    left in [buffer]. *)
Definition FormatTime (seconds : Z) : string :=
  let mins := seconds / 60 in
  let secs := seconds mod 60 in
  let chr (d : Z) := ascii_of_N (Z.to_N (uint8 (48 + d))) in
  String (chr (mins / 10))
    (String (chr (mins mod 10))
      (String ":"
        (String (chr (secs / 10))
          (String (chr (secs mod 10)) EmptyString)))).

(** One turn of [while (remaining > 0) { ... }], entered with
    [remaining > 0]: the new [remaining] and [led1_on]. *)
Definition countdown_turn (remaining : Z) (led1_on : bool)
  : Task (Z * bool) :=
  SafeDisp2String ("LOOP: Inside countdown" ++ CRLF)%string ;;
  vTaskDelay 1000 ;;
  let remaining := uint16 (remaining - 1) in
  SafeDisp2String "Time: "%string ;;
  SafeDisp2String (FormatTime remaining) ;;
  SafeDisp2String CRLF ;;
  let led1_on := negb led1_on in
  (if led1_on then LED1_On else LED1_Off) ;;
  in_pwm (PWM.PWM_SetOutputEnabled led1_on) ;;
  ret (remaining, led1_on).

(** [while (remaining > 0) { ... }].  [fuel] bounds the number of turns;
    [None] when it runs out before the loop ends. *)
Fixpoint countdown_loop (fuel : nat) (remaining : Z) (led1_on : bool)
  : Task (option (Z * bool)) :=
  if remaining >? 0 then
    match fuel with
    | O => ret None
    | S fuel' =>
        r <- countdown_turn remaining led1_on ;;
        countdown_loop fuel' (fst r) (snd r)
    end
  else ret (Some (remaining, led1_on)).

(** One turn of the task's [for(;;)], from the moment
    [xSemaphoreTake(xStartCountdownSem, portMAX_DELAY)] returns; [led1_on]
    is kept from one turn to the next.  The countdown loop gets as many
    turns as [remaining] counts, which is as many as it takes. *)
Definition vCountdownTask_turn (led1_on : bool) : Task (option bool) :=
  ok <- xSemaphoreTake ;;
  remaining <- (if ok then
                  w <- get ;; xSemaphoreGive ;; ret (g_CountdownSeconds w)
                else ret 0) ;;
  if remaining =? 0 then
    SafeDisp2String ("[ERROR: No time set]" ++ CRLF)%string ;;
    write_SystemState STATE_WAITING ;;
    ret (Some led1_on)
  else
    SafeDisp2String (CRLF ++ "[COUNTDOWN STARTED]" ++ CRLF)%string ;;
    SafeDisp2String ("TEST1: Simple string works" ++ CRLF)%string ;;
    (if remaining =? 0
     then SafeDisp2String ("ERROR: remaining is ZERO!" ++ CRLF)%string
     else SafeDisp2String ("TEST2: remaining is NOT zero" ++ CRLF)%string) ;;
    LED1_Off ;;
    in_pwm PWM.PWM_Start ;;
    in_pwm (PWM.PWM_SetOutputEnabled true) ;;
    in_pwm (PWM.PWM_SetDutyCycle 50) ;;
    SafeDisp2String ("TEST3: After LED init" ++ CRLF)%string ;;
    SafeDisp2String (CRLF ++ "Time: ")%string ;;
    SafeDisp2String (FormatTime remaining) ;;
    SafeDisp2String CRLF ;;
    SafeDisp2String "TEST8: Before loop, remaining="%string ;;
    (if remaining >? 0
     then SafeDisp2String (">0, entering loop" ++ CRLF)%string
     else SafeDisp2String ("=0, NOT entering loop" ++ CRLF)%string) ;;
    r <- countdown_loop (Z.to_nat remaining) remaining led1_on ;;
    match r with
    | None => ret None
    | Some (_, led1_on) =>
        LED1_Off ;;
        in_pwm PWM.PWM_Stop ;;
        SafeDisp2String (CRLF ++ String LF "COUNTDOWN COMPLETE!"
                              ++ CRLF ++ String LF EmptyString)%string ;;
        write_SystemState STATE_WAITING ;;
        ret (Some led1_on)
    end.

(** *** vButtonTask *)

(** One turn of the polling loop: [Buttons_Update(10);
    Buttons_SendPendingEvents();], on the statics of buttons.c and
    [xButtonQueue]. *)
Definition vButtonTask_poll (gq : Buttons.Statics * list ButtonEvent_t)
           (pins : Buttons.Pins) : Buttons.Statics * list ButtonEvent_t :=
  let g := Buttons.Buttons_Update (fst gq) pins 10 in
  let '(_, g, q) := Buttons.Buttons_SendPendingEvents g (snd gq) in
  (g, q).

(** [vButtonTask] through its first polls: [Buttons_Init] with the pins
    as they read at start, then one poll per element of [polls]. *)
Definition vButtonTask (at_start : Buttons.Pins) (polls : list Buttons.Pins)
           (q : list ButtonEvent_t) : Buttons.Statics * list ButtonEvent_t :=
  fold_left vButtonTask_poll polls (Buttons.Buttons_Init at_start, q).

End App.

(** * Vocabulary of the properties *)

Module Gesture.

Import Buttons.

(** Successive polls of one button, [elapsed_ms] apart, with the raw
    readings [raws]. *)
Definition polls (s : ButtonState_t) (raws : list bool) (elapsed_ms : Z)
  : ButtonState_t :=
  fold_left (fun s r => UpdateButtonState s r elapsed_ms) raws s.

(** Contact bounce around the level [stable]: for each [k] of [ks], [k]
    readings of the other level and then one reading of [stable] again;
    at the end, [last] more readings of the other level. *)
Definition bounce (stable : bool) (ks : list nat) (last : nat) : list bool :=
  flat_map (fun k => repeat (negb stable) k ++ [stable]) ks
  ++ repeat (negb stable) last.

(** The four click-check operations of buttons.h. *)
Inductive ClickCheck :=
| IsPB1Clicked
| IsPB2Clicked
| IsPB3Clicked
| IsPB2AndPB3Click.

Definition check (c : ClickCheck) : Statics -> bool * Statics :=
  match c with
  | IsPB1Clicked => Buttons_IsPB1Clicked
  | IsPB2Clicked => Buttons_IsPB2Clicked
  | IsPB3Clicked => Buttons_IsPB3Clicked
  | IsPB2AndPB3Click => Buttons_IsPB2AndPB3Click
  end.

(** The pending flag that a click check reports. *)
Definition pending (c : ClickCheck) (g : Statics) : bool :=
  match c with
  | IsPB1Clicked => click_pending (pb1_state g)
  | IsPB2Clicked => click_pending (pb2_state g)
  | IsPB3Clicked => click_pending (pb3_state g)
  | IsPB2AndPB3Click => pb2_pb3_combo_click_pending g
  end.

(** A long press of one button is due: held past the threshold and not
    yet reported. *)
Definition long_press_due (s : ButtonState_t) : bool :=
  current_state s
  && (press_duration s >=? LONG_PRESS_THRESHOLD_MS)
  && negb (long_press_sent s).

(** A long press of the PB2+PB3 pair is due. *)
Definition combo_long_press_due (g : Statics) : bool :=
  current_state (pb2_state g) && current_state (pb3_state g)
  && (pb2_pb3_combo_duration g >=? LONG_PRESS_THRESHOLD_MS)
  && negb (pb2_pb3_combo_long_press_sent g).

Definition COMBO_CLICK := mkButtonEvent BUTTON_PB2_AND_PB3 EVENT_CLICK.
Definition COMBO_LONG_PRESS :=
  mkButtonEvent BUTTON_PB2_AND_PB3 EVENT_LONG_PRESS.
Definition PB1_CLICK := mkButtonEvent BUTTON_PB1 EVENT_CLICK.
Definition PB3_LONG_PRESS := mkButtonEvent BUTTON_PB3 EVENT_LONG_PRESS.
Definition PB3_CLICK := mkButtonEvent BUTTON_PB3 EVENT_CLICK.
Definition PB2_CLICK := mkButtonEvent BUTTON_PB2 EVENT_CLICK.

(** The order in which [Buttons_SendPendingEvents] is to consider the
    events, highest priority first. *)
Definition priority : list ButtonEvent_t :=
  [COMBO_CLICK; COMBO_LONG_PRESS; PB1_CLICK; PB3_LONG_PRESS; PB3_CLICK;
   PB2_CLICK].

(** Event [e] is ready for delivery. *)
Definition due (g : Statics) (e : ButtonEvent_t) : bool :=
  match button e, event e with
  | BUTTON_PB2_AND_PB3, EVENT_CLICK => pb2_pb3_combo_click_pending g
  | BUTTON_PB2_AND_PB3, EVENT_LONG_PRESS => combo_long_press_due g
  | BUTTON_PB1, EVENT_CLICK => click_pending (pb1_state g)
  | BUTTON_PB3, EVENT_LONG_PRESS => long_press_due (pb3_state g)
  | BUTTON_PB3, EVENT_CLICK => click_pending (pb3_state g)
  | BUTTON_PB2, EVENT_CLICK => click_pending (pb2_state g)
  | _, _ => false
  end.

(** The events ready for delivery, highest priority first. *)
Definition ready (g : Statics) : list ButtonEvent_t :=
  filter (due g) priority.

(** The pin readings used in the scenarios. *)
Definition all_released : Pins := mkPins false false false.
Definition pb2_pb3_down : Pins := mkPins false true true.
Definition pb2_down : Pins := mkPins false true false.


(** The statics after PB2 and PB3 went down together, were held for 310 ms
    past their debounce and have read released for four polls: the next
    released reading commits the release of both. *)
Definition short_hold_released : Statics :=
  fold_left (fun g pins => Buttons_Update g pins 10)
            (repeat pb2_pb3_down 35 ++ repeat all_released 4)
            (Buttons_Init all_released).

End Gesture.

Module Scenario.

Import App.

(** The characters of a string, as they arrive at the UART. *)
Definition typed (s : string) : list ascii := list_ascii_of_string s.


(** The globals while the time is being entered, nothing stored yet and
    the mutexes free. *)
Definition entering_time : World :=
  mkWorld STATE_TIME_INPUT 0 [] PWM.at_reset false [] 0 [].

(** The globals when the countdown task is started with 3 seconds stored
    and [q] waiting in [xButtonQueue]. *)
Definition counting (q : list ButtonEvent_t) : World :=
  mkWorld STATE_COUNTDOWN 3 q PWM.at_reset false [] 0 [].

(** The locals of the input loop after the characters [s] were typed at
    the prompt. *)
Definition after_typing (s : string) : InputLocals :=
  fst (runState (enter_time (typed s)) entering_time).


(** The next [xSemaphoreTake] on a mutex succeeds. *)
Definition next_take_succeeds (w : World) : Prop :=
  hd true (contention w) = true.

(** [w'] has the state, the stored time and the button queue of [w]. *)
Definition same_shared (w w' : World) : Prop :=
  g_SystemState w' = g_SystemState w
  /\ g_CountdownSeconds w' = g_CountdownSeconds w
  /\ xButtonQueue w' = xButtonQueue w.

(** A computation that neither writes the state or the stored time nor
    touches the button queue. *)
Definition quiet {A : Type} (c : Task A) : Prop :=
  forall w, same_shared w (snd (runState c w)).

(** A computation that leaves the state as it was or at [v], and does not
    touch the button queue. *)
Definition settles {A : Type} (v : SystemState_t) (c : Task A) : Prop :=
  forall w,
    (g_SystemState (snd (runState c w)) = v
     \/ g_SystemState (snd (runState c w)) = g_SystemState w)
    /\ xButtonQueue (snd (runState c w)) = xButtonQueue w.

End Scenario.

(** ** adc.c: the conversion of a reading *)

Module ADC.

Definition ADC_MAX_VALUE : Z := 1023.

(** [uint8_t ADC_ToPercent(uint16_t adc_value)]: the product is formed
    in 32 bits and the quotient is cut to 8 bits by the return. *)
Definition ADC_ToPercent (adc_value : Z) : Z :=
  let adc_value := uint16 adc_value in
  let temp := (adc_value * 100) mod 2 ^ 32 in
  uint8 (temp / ADC_MAX_VALUE).

End ADC.

(** ** main.c: the waiting task *)

Module Waiting.

Import App.
Import MonadNotation.
Local Open Scope monad_scope.

Definition PULSE_PERIOD_MS : Z := 2000.

(** [xQueueReceive(xButtonQueue, &buttonEvent, pdMS_TO_TICKS(20))]: the
    oldest event when one is there (or arrives within the 20 ms), none
    when the wait expires on an empty queue. *)
Definition xQueueReceive : Task (option ButtonEvent_t) :=
  w <- get ;;
  match xButtonQueue w with
  | [] => ret None
  | e :: q =>
      put (mkWorld (g_SystemState w) (g_CountdownSeconds w) q (pwm w)
                   (LED1 w) (terminal w) (delayed_ms w) (contention w)) ;;
      ret (Some e)
  end.

(** [PWM_UpdatePulse(20, PULSE_PERIOD_MS)]; the period is not 0, so the
    call has a result. *)
Definition update_pulse (p : PWM.Statics) : PWM.Statics :=
  match PWM.PWM_UpdatePulse 20 PULSE_PERIOD_MS p with
  | Some p' => p'
  | None => p
  end.

Definition is_PB1_click (e : ButtonEvent_t) : bool :=
  match button e, event e with
  | BUTTON_PB1, EVENT_CLICK => true
  | _, _ => false
  end.

(** One turn of [while (g_SystemState == STATE_WAITING) { ... }] in
    [vWaitingTask], entered with the state at [STATE_WAITING].  The result
    is [true] when the turn gave [xStartInputSem] and left the loop by its
    [break]; [vTaskDelayUntil] at the end of the other turns only waits
    for the next 20 ms boundary. *)
Definition waiting_turn : Task bool :=
  in_pwm update_pulse ;;
  r <- xQueueReceive ;;
  match r with
  | Some buttonEvent =>
      if is_PB1_click buttonEvent then
        in_pwm PWM.PWM_Stop ;;
        write_SystemState STATE_TIME_INPUT ;;
        ret true
      else ret false
  | None => ret false
  end.

(** [while (g_SystemState == STATE_WAITING) { ... }] for at most [turns]
    turns.  [Some true]: a turn left the loop by its [break];
    [Some false]: the state was found changed at the head of the loop;
    [None]: the turns ran out with the task still in the loop. *)
Fixpoint waiting_loop (turns : nat) : Task (option bool) :=
  w <- get ;;
  match g_SystemState w with
  | STATE_WAITING =>
      match turns with
      | O => ret None
      | S turns' =>
          left_by_break <- waiting_turn ;;
          if left_by_break then ret (Some true) else waiting_loop turns'
      end
  | _ => ret (Some false)
  end.

(** What the task does between noticing [STATE_WAITING] and the first
    turn of the loop, after the queue was emptied: the delay, the welcome
    text and the start of the pulse. *)
Definition waiting_entry : Task unit :=
  vTaskDelay 100 ;;
  SafeDisp2String
    (CRLF ++ String LF "========================================" ++ CRLF)
    %string ;;
  SafeDisp2String ("      COUNTDOWN TIMER APPLICATION" ++ CRLF)%string ;;
  SafeDisp2String ("========================================" ++ CRLF)
    %string ;;
  SafeDisp2String ("Press PB1 to enter time..." ++ CRLF
                   ++ String LF EmptyString)%string ;;
  in_pwm PWM.PWM_ResetPulse ;;
  in_pwm PWM.PWM_Start ;;
  in_pwm (PWM.PWM_SetOutputEnabled true).

End Waiting.

(** * Vocabulary of the further properties *)

Module Trace.

Import Buttons Gesture.

(** The polling loop of [vButtonTask] continued from statics [g] and
    queue [q]. *)
Definition poll_on (gq : Statics * list ButtonEvent_t) (polls : list Pins)
  : Statics * list ButtonEvent_t :=
  fold_left App.vButtonTask_poll polls gq.

(** A button at rest: released, nothing counted, nothing pending. *)
Definition at_rest (s : ButtonState_t) : bool :=
  negb (current_state s) && negb (raw_state s)
  && (debounce_counter s =? 0) && negb (click_pending s).

(** The statics at rest: the three buttons at rest, no combo click
    pending and the combo window closed. *)
Definition idle (g : Statics) : bool :=
  at_rest (pb1_state g) && at_rest (pb2_state g) && at_rest (pb3_state g)
  && negb (pb2_pb3_combo_click_pending g)
  && negb (pb2_pb3_combo_long_press_sent g)
  && (pb2_pb3_combo_duration g =? 0)
  && negb (pb2_was_pressed_in_combo g)
  && negb (pb3_was_pressed_in_combo g).

(** A button that is debounced-pressed: [raw] its last reading, [k] the
    released readings counted so far, [d] its hold time and [lps] whether
    its long press was reported. *)
Definition held (raw : bool) (k d : Z) (lps : bool) : ButtonState_t :=
  mkButtonState true false raw k d false lps.

(** A button after its release was committed and its click, if any, was
    sent. *)
Definition let_go (lps : bool) : ButtonState_t :=
  mkButtonState false true false 0 0 false lps.

(** The statics when only button [b] has been touched since
    [Buttons_Init]: its state [s], and for PB2 and PB3 the combo window
    open for [cd] ms while the button is down. *)
Definition one_button (b : ButtonId_t) (s : ButtonState_t) (cd : Z)
  : Statics :=
  match b with
  | BUTTON_PB1 =>
      mkStatics s (init_button false) (init_button false)
                false false 0 false false
  | BUTTON_PB2 =>
      mkStatics (init_button false) s (init_button false)
                false false cd (current_state s) false
  | BUTTON_PB3 =>
      mkStatics (init_button false) (init_button false) s
                false false cd false (current_state s)
  | _ => Buttons_Init all_released
  end.

(** The pins with only button [b] down. *)
Definition only (b : ButtonId_t) : Pins :=
  match b with
  | BUTTON_PB1 => mkPins true false false
  | BUTTON_PB2 => mkPins false true false
  | BUTTON_PB3 => mkPins false false true
  | _ => all_released
  end.

Definition ButtonEvent_eq_dec (a b : ButtonEvent_t) : {a = b} + {a <> b}.
Proof. decide equality; decide equality. Defined.

(** From [Buttons_Init] with the pins released, the polls [polls] leave
    the statics at rest and exactly the events [expected] in the queue. *)
Definition settles_with (polls : list Pins) (expected : list ButtonEvent_t)
  : bool :=
  let r := App.vButtonTask all_released polls [] in
  idle (fst r)
  && (if list_eq_dec ButtonEvent_eq_dec (snd r) expected
      then true else false).

(** Of the next [n] Timer2 interrupts, how many leave LED2 on. *)
Fixpoint lit_ticks (n : nat) (p : PWM.Statics) : nat :=
  match n with
  | O => 0%nat
  | S n' =>
      let p' := PWM.T2Interrupt p in
      ((if PWM.LED2 p' then 1 else 0) + lit_ticks n' p')%nat
  end.

(** The input loop of [vTimeInputTask] keeps its buffer well formed: 16
    elements, the index below the last of them, and [NUL] from the index
    on. *)
Definition buffer_ok (l : App.InputLocals) : Prop :=
  List.length (App.input_buffer l) = App.sizeof_input_buffer
  /\ (App.input_index l < App.sizeof_input_buffer)%nat
  /\ forall j, (App.input_index l <= j)%nat ->
               nth j (App.input_buffer l) App.NUL = App.NUL.

(** A character that the input loop takes into the buffer. *)
Definition accepted (c : ascii) : bool :=
  App.is_digit c || (c =? ":")%char.

End Trace.

(** * The debounce engine *)

Section Debounce.

Import Buttons Gesture.

Lemma uint16_range x : 0 <= uint16 x < 65536.
Proof. unfold uint16. apply Z.mod_pos_bound. lia. Qed.

Lemma uint16_small x : 0 <= x < 65536 -> uint16 x = x.
Proof. intros H. unfold uint16. apply Z.mod_small. exact H. Qed.

(** A reading that agrees with the debounced state leaves that state
    alone and clears the counter. *)
Lemma update_agree s e :
  current_state (UpdateButtonState s (current_state s) e) = current_state s
  /\ debounce_counter (UpdateButtonState s (current_state s) e) = 0.
Proof.
  destruct s as [cur lst raw cnt dur clk lps].
  unfold UpdateButtonState. cbn. rewrite Bool.eqb_reflx.
  destruct cur; cbn; auto.
Qed.

(** A reading that disagrees, with the counter still below
    [DEBOUNCE_COUNT - 1], only counts. *)
Lemma update_disagree s e :
  0 <= debounce_counter s < DEBOUNCE_COUNT - 1 ->
  current_state (UpdateButtonState s (negb (current_state s)) e)
  = current_state s
  /\ debounce_counter (UpdateButtonState s (negb (current_state s)) e)
     = debounce_counter s + 1.
Proof.
  destruct s as [cur lst raw cnt dur clk lps].
  unfold DEBOUNCE_COUNT. cbn. intros H.
  unfold UpdateButtonState. cbn.
  assert (E : Bool.eqb (negb cur) cur = false) by (destruct cur; reflexivity).
  rewrite E. cbn.
  rewrite uint16_small by lia.
  unfold DEBOUNCE_COUNT.
  destruct (Z.geb_spec (cnt + 1) 5) as [G | G]; [lia |].
  destruct cur; cbn; auto.
Qed.

(** The fifth disagreeing reading in a row commits the new level. *)
Lemma update_commit s e :
  debounce_counter s = DEBOUNCE_COUNT - 1 ->
  current_state (UpdateButtonState s (negb (current_state s)) e)
  = negb (current_state s).
Proof.
  destruct s as [cur lst raw cnt dur clk lps].
  unfold DEBOUNCE_COUNT. cbn. intros H. subst cnt.
  unfold UpdateButtonState. cbn.
  assert (E : Bool.eqb (negb cur) cur = false) by (destruct cur; reflexivity).
  rewrite E. cbn.
  destruct cur, lps; reflexivity.
Qed.

Lemma polls_app s r1 r2 e :
  polls s (r1 ++ r2) e = polls (polls s r1 e) r2 e.
Proof. unfold polls. apply fold_left_app. Qed.

(** Fewer disagreeing readings than the counter has left to go. *)
Lemma polls_flip s e (b : bool) (k : nat) :
  current_state s = b ->
  0 <= debounce_counter s ->
  debounce_counter s + Z.of_nat k < DEBOUNCE_COUNT ->
  current_state (polls s (repeat (negb b) k) e) = b
  /\ debounce_counter (polls s (repeat (negb b) k) e)
     = debounce_counter s + Z.of_nat k.
Proof.
  revert s. induction k as [| k IH]; intros s Hb H0 H.
  - cbn. split; [exact Hb | lia].
  - cbn [repeat polls fold_left]. subst b.
    destruct (update_disagree s e) as [Hc Hd].
    { unfold DEBOUNCE_COUNT in *. lia. }
    destruct (IH (UpdateButtonState s (negb (current_state s)) e) Hc)
      as [Ic Id]; [lia | lia |].
    unfold polls in Ic, Id. rewrite Ic, Id, Hd. split; [reflexivity | lia].
Qed.

(** One bounce: fewer than [DEBOUNCE_COUNT] disagreeing readings, then
    agreement again. *)
Lemma polls_one_bounce s e (b : bool) (k : nat) :
  current_state s = b ->
  debounce_counter s = 0 ->
  Z.of_nat k < DEBOUNCE_COUNT ->
  current_state (polls s (repeat (negb b) k ++ [b]) e) = b
  /\ debounce_counter (polls s (repeat (negb b) k ++ [b]) e) = 0.
Proof.
  intros Hb H0 Hk. rewrite polls_app.
  destruct (polls_flip s e b k Hb) as [Hc Hd]; [lia | lia |].
  set (p := polls s (repeat (negb b) k) e) in *.
  change (polls p [b] e) with (UpdateButtonState p b e).
  rewrite <- Hc. apply update_agree.
Qed.

Lemma polls_bounces s e (b : bool) ks :
  current_state s = b ->
  debounce_counter s = 0 ->
  Forall (fun k => Z.of_nat k < DEBOUNCE_COUNT) ks ->
  current_state (polls s (bounce b ks 0) e) = b
  /\ debounce_counter (polls s (bounce b ks 0) e) = 0.
Proof.
  unfold bounce. cbn [repeat]. rewrite app_nil_r.
  revert s. induction ks as [| k ks IH]; intros s Hb H0 HF.
  - cbn. auto.
  - inversion HF as [| ? ? Hk HF']; subst.
    cbn [flat_map]. rewrite polls_app.
    destruct (polls_one_bounce s e (current_state s) k eq_refl H0 Hk)
      as [Hc Hd].
    apply (IH _ Hc Hd HF').
Qed.

End Debounce.

(** C6.  A raw reading that leaves the debounced level for fewer than 5
    polls in a row and then agrees with it again never changes
    [current_state], however often that happens: from a button whose
    counter is at 0 (as it is after [Buttons_Init], after every agreeing
    reading and after every committed change), any bounce sequence whose
    runs of disagreeing readings are all shorter than [DEBOUNCE_COUNT]
    leaves [current_state] as it was.  The sequences [bounce _ ks last] are
    closed under taking prefixes, so this holds at every poll on the way. *)
Theorem debounce_rejects_short_flips
        (s : Buttons.ButtonState_t) (elapsed_ms : Z)
        (ks : list nat) (last : nat) :
  Buttons.debounce_counter s = 0 ->
  Forall (fun k => (k < 5)%nat) ks ->
  (last < 5)%nat ->
  Buttons.current_state
    (Gesture.polls s (Gesture.bounce (Buttons.current_state s) ks last)
                   elapsed_ms)
  = Buttons.current_state s.
Proof.
  intros H0 HF Hl.
  assert (HF' : Forall (fun k => Z.of_nat k < Buttons.DEBOUNCE_COUNT) ks).
  { eapply Forall_impl; [| exact HF]. unfold Buttons.DEBOUNCE_COUNT.
    cbn beta. intros. lia. }
  destruct (polls_bounces s elapsed_ms _ ks eq_refl H0 HF') as [Hc Hd].
  unfold Gesture.bounce in *. cbn [repeat] in Hc, Hd.
  rewrite app_nil_r in Hc, Hd.
  rewrite polls_app.
  apply polls_flip; [exact Hc | |]; rewrite Hd;
    unfold Buttons.DEBOUNCE_COUNT; lia.
Qed.

Lemma debounce_rejects_short_flips_witness :
  Buttons.current_state
    (Gesture.polls (Buttons.init_button false)
                   (Gesture.bounce false [4; 1; 3; 0]%nat 4) 10)
  = false.
Proof.
  apply (debounce_rejects_short_flips (Buttons.init_button false) 10
           [4; 1; 3; 0]%nat 4).
  - reflexivity.
  - repeat constructor.
  - lia.
Defined.

(** C8.  After every call of [UpdateButtonState], whatever the state
    before, [debounce_counter] is at most [DEBOUNCE_COUNT] (it is in fact
    below it), and a reading equal to the debounced state leaves it at 0. *)
Theorem debounce_counter_bounded
        (s : Buttons.ButtonState_t) (raw_reading : bool) (elapsed_ms : Z) :
  0 <= Buttons.debounce_counter
         (Buttons.UpdateButtonState s raw_reading elapsed_ms)
    <= Buttons.DEBOUNCE_COUNT
  /\ Buttons.debounce_counter
       (Buttons.UpdateButtonState s (Buttons.current_state s) elapsed_ms)
     = 0.
Proof.
  split; [| apply update_agree].
  destruct s as [cur lst raw cnt dur clk lps].
  unfold Buttons.UpdateButtonState, Buttons.DEBOUNCE_COUNT. cbn.
  destruct (Bool.eqb raw_reading cur); cbn.
  - destruct cur; cbn; lia.
  - pose proof (uint16_range (cnt + 1)) as R.
    destruct (Z.geb_spec (uint16 (cnt + 1)) 5) as [G | G]; cbn.
    + destruct raw_reading; cbn; [lia |].
      destruct lps; cbn; lia.
    + destruct cur; cbn; lia.
Qed.

(** * The gesture detector *)

Section Gestures.

Import Buttons Gesture.

(** C9.  For each click-check operation, when its click is pending the
    first call returns [true] and clears the flag, and a second call made
    right after it returns [false]. *)
Theorem click_check_twice (c : ClickCheck) (g : Statics) :
  pending c g = true ->
  fst (check c g) = true
  /\ pending c (snd (check c g)) = false
  /\ fst (check c (snd (check c g))) = false.
Proof.
  destruct g as [[] [] [] ? ? ? ? ?].
  destruct c; cbn; intros ->; cbn; auto.
Qed.

Lemma click_check_twice_witness :
  fst (check IsPB2AndPB3Click
             (set_combo_click_pending true (Buttons_Init all_released)))
  = true
  /\ pending IsPB2AndPB3Click
       (snd (check IsPB2AndPB3Click
               (set_combo_click_pending true (Buttons_Init all_released))))
     = false
  /\ fst (check IsPB2AndPB3Click
            (snd (check IsPB2AndPB3Click
                    (set_combo_click_pending true
                       (Buttons_Init all_released)))))
     = false.
Proof.
  apply (click_check_twice IsPB2AndPB3Click
           (set_combo_click_pending true (Buttons_Init all_released))).
  reflexivity.
Defined.

(** A click check with nothing pending returns [false] and changes
    nothing. *)
Lemma click_check_idle (c : ClickCheck) (g : Statics) :
  pending c g = false -> check c g = (false, g).
Proof.
  destruct c; cbn; unfold Buttons_IsPB1Clicked, Buttons_IsPB2Clicked,
    Buttons_IsPB3Clicked, Buttons_IsPB2AndPB3Click; intros ->; reflexivity.
Qed.

Lemma send_length (q : list ButtonEvent_t) b e :
  send q b e
  = ((List.length q <? BUTTON_QUEUE_SIZE)%nat,
     if (List.length q <? BUTTON_QUEUE_SIZE)%nat
     then q ++ [mkButtonEvent b e] else q).
Proof.
  unfold send, Queue.xQueueSend.
  destruct (List.length q <? BUTTON_QUEUE_SIZE)%nat; reflexivity.
Qed.

(** With nothing ready, nothing is sent and nothing changes. *)
Lemma send_pending_events_idle (g : Statics) (q : list ButtonEvent_t) :
  ready g = [] -> Buttons_SendPendingEvents g q = (false, g, q).
Proof.
  destruct g as [[c1 l1 r1 n1 d1 k1 p1] [c2 l2 r2 n2 d2 k2 p2]
                 [c3 l3 r3 n3 d3 k3 p3] cc cl cd w2 w3].
  unfold ready, priority, due, Buttons_SendPendingEvents,
    Buttons_IsPB2AndPB3LongPress, CheckLongPress, combo_long_press_due,
    long_press_due, LONG_PRESS_THRESHOLD_MS.
  cbn.
  destruct cc; [discriminate |].
  destruct (c2 && c3 && (cd >=? 1000) && negb cl); [discriminate |]. cbn.
  destruct k1; [discriminate |]. cbn.
  destruct (c3 && (d3 >=? 1000) && negb p3); [discriminate |]. cbn.
  destruct k3; [discriminate |]. cbn.
  destruct k2; [discriminate |]. reflexivity.
Qed.

End Gestures.

(** C3.  When one or more events are ready, [Buttons_SendPendingEvents]
    picks the first of them in the order combo click, combo long press, PB1
    click, PB3 long press, PB3 click, PB2 click, and sends that one event
    and no other without blocking: with room in [xButtonQueue] the event is
    appended and the call returns [true]; with the queue full the queue is
    left as it is and the call returns [false].  Either way the event is no
    longer ready afterwards, so a dropped event is not sent again. *)
Theorem send_pending_events_priority
        (g : Buttons.Statics) (q : list ButtonEvent_t)
        (e : ButtonEvent_t) (rest : list ButtonEvent_t) :
  Gesture.ready g = e :: rest ->
  exists g',
    Buttons.Buttons_SendPendingEvents g q
    = ((List.length q <? BUTTON_QUEUE_SIZE)%nat, g',
       if (List.length q <? BUTTON_QUEUE_SIZE)%nat then q ++ [e] else q)
    /\ Gesture.due g' e = false.
Proof.
  destruct g as [[c1 l1 r1 n1 d1 k1 p1] [c2 l2 r2 n2 d2 k2 p2]
                 [c3 l3 r3 n3 d3 k3 p3] cc cl cd w2 w3].
  unfold Gesture.ready, Gesture.priority, Gesture.due,
    Buttons.Buttons_SendPendingEvents, Buttons.Buttons_IsPB2AndPB3LongPress,
    Buttons.CheckLongPress, Gesture.combo_long_press_due,
    Gesture.long_press_due, Buttons.LONG_PRESS_THRESHOLD_MS.
  cbn. rewrite !send_length.
  destruct cc.
  { intros [= <- _]. eexists. split; [reflexivity | reflexivity]. }
  destruct (c2 && c3 && (cd >=? 1000) && negb cl) eqn:E2; cbn.
  { intros [= <- _]. eexists. split; [reflexivity |]. cbn.
    apply andb_false_r. }
  destruct k1; cbn.
  { intros [= <- _]. eexists. split; [reflexivity | reflexivity]. }
  destruct (c3 && (d3 >=? 1000) && negb p3) eqn:E4; cbn.
  { intros [= <- _]. eexists. split; [reflexivity |]. cbn.
    apply andb_false_r. }
  destruct k3; cbn.
  { intros [= <- _]. eexists. split; [reflexivity | reflexivity]. }
  destruct k2; cbn.
  { intros [= <- _]. eexists. split; [reflexivity | reflexivity]. }
  discriminate.
Qed.

Lemma send_pending_events_priority_witness :
  exists g',
    Buttons.Buttons_SendPendingEvents
      (Buttons.set_combo_click_pending true
         (Buttons.set_pb1_state
            (Buttons.set_click_pending true (Buttons.init_button false))
            (Buttons.Buttons_Init Gesture.all_released)))
      []
    = (true, g', [Gesture.COMBO_CLICK])
    /\ Gesture.due g' Gesture.COMBO_CLICK = false.
Proof.
  apply (send_pending_events_priority
           (Buttons.set_combo_click_pending true
              (Buttons.set_pb1_state
                 (Buttons.set_click_pending true (Buttons.init_button false))
                 (Buttons.Buttons_Init Gesture.all_released)))
           [] Gesture.COMBO_CLICK [Gesture.PB1_CLICK]).
  reflexivity.
Defined.

(** Opens [Buttons_Update] on statics given by their fields, naming the
    three button states after their update. *)
Ltac open_update g pins e :=
  destruct g as [?s1 ?s2 ?s3 ?cc ?cl ?cd ?w2 ?w3];
  unfold Buttons.Buttons_Update, Buttons.LONG_PRESS_THRESHOLD_MS;
  cbn -[Buttons.UpdateButtonState uint16 Z.geb Z.gtb Z.ltb];
  generalize (Buttons.UpdateButtonState s1 (Buttons.PB1_Read pins) e);
  generalize (Buttons.UpdateButtonState s2 (Buttons.PB2_Read pins) e);
  generalize (Buttons.UpdateButtonState s3 (Buttons.PB3_Read pins) e);
  intros [?c3 ?l3 ?r3 ?n3 ?d3 ?k3 ?p3] [?c2 ?l2 ?r2 ?n2 ?d2 ?k2 ?p2] ?u1;
  cbn -[uint16 Z.geb Z.gtb Z.ltb].

Ltac split_ifs :=
  repeat match goal with
         | |- context [if ?b then _ else _] =>
             destruct b eqn:?; cbn -[uint16 Z.geb Z.gtb Z.ltb]
         end.

Section Combo.

Import Buttons Gesture.

(** [Buttons_Update] leaves the debounced levels as the three calls of
    [UpdateButtonState] set them. *)
Lemma update_levels (g : Statics) (pins : Pins) (e : Z) :
  current_state (pb2_state (Buttons_Update g pins e))
  = current_state (UpdateButtonState (pb2_state g) (PB2_Read pins) e)
  /\ current_state (pb3_state (Buttons_Update g pins e))
     = current_state (UpdateButtonState (pb3_state g) (PB3_Read pins) e).
Proof.
  open_update g pins e.
  destruct c2, c3; cbn -[uint16 Z.geb Z.gtb Z.ltb]; split_ifs; auto.
Qed.

(** After [Buttons_Update] the pair's long press is never due: the update
    itself sets [pb2_pb3_combo_long_press_sent] on the poll at which the
    threshold is reached. *)
Lemma combo_long_press_not_due_after_update
      (g : Statics) (pins : Pins) (e : Z) :
  combo_long_press_due (Buttons_Update g pins e) = false.
Proof.
  unfold combo_long_press_due. open_update g pins e.
  destruct c2, c3; cbn -[uint16 Z.geb Z.gtb Z.ltb]; split_ifs;
    rewrite ?andb_false_r; auto.
Qed.

(** So [Buttons_IsPB2AndPB3LongPress], called after [Buttons_Update] as
    the polling loop does, returns [false]. *)
Lemma IsPB2AndPB3LongPress_after_update (g : Statics) (pins : Pins) (e : Z) :
  Buttons_IsPB2AndPB3LongPress (Buttons_Update g pins e)
  = (false, Buttons_Update g pins e).
Proof.
  pose proof (combo_long_press_not_due_after_update g pins e) as H.
  revert H. generalize (Buttons_Update g pins e). intros g1 H.
  unfold combo_long_press_due in H.
  unfold Buttons_IsPB2AndPB3LongPress. rewrite H. reflexivity.
Qed.

(** What [Buttons_Update] does on the poll at which the pair's hold time
    reaches the threshold with both buttons down: it sets the flag and
    clears the two click flags, and raises no combo click. *)
Lemma update_marks_combo_long_press (g : Statics) (pins : Pins) (e : Z) :
  let g' := Buttons_Update g pins e in
  current_state (pb2_state g') = true ->
  current_state (pb3_state g') = true ->
  uint16 (pb2_pb3_combo_duration g + e) >= LONG_PRESS_THRESHOLD_MS ->
  pb2_pb3_combo_long_press_sent g' = true
  /\ pb2_pb3_combo_click_pending g' = pb2_pb3_combo_click_pending g
  /\ (pb2_pb3_combo_long_press_sent g = false ->
      click_pending (pb2_state g') = false
      /\ click_pending (pb3_state g') = false).
Proof.
  cbv zeta. destruct (update_levels g pins e) as [-> ->].
  open_update g pins e.
  intros -> -> H. cbn -[uint16 Z.geb Z.gtb Z.ltb].
  destruct (Z.geb_spec (uint16 (cd + e)) 1000); [| lia].
  destruct cl; cbn; repeat split; auto; discriminate.
Qed.

(** While the flag is set, [Buttons_Update] raises no combo click. *)
Lemma no_combo_click_after_long_press (g : Statics) (pins : Pins) (e : Z) :
  pb2_pb3_combo_long_press_sent g = true ->
  pb2_pb3_combo_click_pending (Buttons_Update g pins e)
  = pb2_pb3_combo_click_pending g.
Proof.
  open_update g pins e. intros ->.
  destruct c2, c3; cbn -[uint16 Z.geb Z.gtb Z.ltb]; split_ifs; auto.
  all: cbn in *; rewrite ?andb_false_r in *; try discriminate.
Qed.

End Combo.

(** C4.  On a poll after which PB2 and PB3 are both debounced-released,
    [Buttons_Update] resets the window: the accumulated duration is 0 and
    the two was-pressed flags and the long-press flag are clear, whether or
    not a gesture fired.  If moreover both buttons were seen pressed in the
    window, its accumulated duration is strictly between 0 and
    [LONG_PRESS_THRESHOLD_MS] and no combo long press was marked, then the
    combo click is pending and the PB2 and PB3 clicks are not. *)
Theorem combo_click_on_release
        (g : Buttons.Statics) (pins : Buttons.Pins) (elapsed_ms : Z) :
  let g' := Buttons.Buttons_Update g pins elapsed_ms in
  Buttons.current_state (Buttons.pb2_state g') = false ->
  Buttons.current_state (Buttons.pb3_state g') = false ->
  (Buttons.pb2_pb3_combo_duration g' = 0
   /\ Buttons.pb2_was_pressed_in_combo g' = false
   /\ Buttons.pb3_was_pressed_in_combo g' = false
   /\ Buttons.pb2_pb3_combo_long_press_sent g' = false)
  /\ (Buttons.pb2_was_pressed_in_combo g = true ->
      Buttons.pb3_was_pressed_in_combo g = true ->
      0 < Buttons.pb2_pb3_combo_duration g
        < Buttons.LONG_PRESS_THRESHOLD_MS ->
      Buttons.pb2_pb3_combo_long_press_sent g = false ->
      Buttons.pb2_pb3_combo_click_pending g' = true
      /\ Buttons.click_pending (Buttons.pb2_state g') = false
      /\ Buttons.click_pending (Buttons.pb3_state g') = false).
Proof.
  cbv zeta. destruct (update_levels g pins elapsed_ms) as [-> ->].
  open_update g pins elapsed_ms.
  intros -> ->. cbn -[uint16 Z.geb Z.gtb Z.ltb]. split.
  - split_ifs; auto.
  - intros -> -> [Hlo Hhi] ->. cbn -[uint16 Z.geb Z.gtb Z.ltb].
    destruct (Z.gtb_spec cd 0); [| lia].
    destruct (Z.ltb_spec cd 1000); [| lia].
    cbn. auto.
Qed.

Lemma combo_click_on_release_witness :
  Buttons.pb2_pb3_combo_click_pending
    (Buttons.Buttons_Update Gesture.short_hold_released
       Gesture.all_released 10) = true
  /\ Buttons.click_pending
       (Buttons.pb2_state
          (Buttons.Buttons_Update Gesture.short_hold_released
             Gesture.all_released 10)) = false
  /\ Buttons.click_pending
       (Buttons.pb3_state
          (Buttons.Buttons_Update Gesture.short_hold_released
             Gesture.all_released 10)) = false.
Proof.
  destruct (combo_click_on_release Gesture.short_hold_released
              Gesture.all_released 10) as [_ H].
  - reflexivity.
  - reflexivity.
  - apply H.
    + reflexivity.
    + reflexivity.
    + vm_compute. split; reflexivity.
    + reflexivity.
Defined.

(** The scenario of the combined click, through the polling loop: PB2
    goes down, PB3 follows 30 ms later, both are held for 300 ms and let
    go together.  One event reaches the queue, the combo click. *)
Example combo_click_scenario :
  snd (App.vButtonTask Gesture.all_released
         (repeat Gesture.pb2_down 3 ++ repeat Gesture.pb2_pb3_down 35
          ++ repeat Gesture.all_released 10) [])
  = [Gesture.COMBO_CLICK].
Proof. vm_compute. reflexivity. Qed.

Section ComboLongPress.

Import Buttons Gesture.

Lemma send_In (q : list ButtonEvent_t) b e x :
  In x (snd (send q b e)) -> In x q \/ x = mkButtonEvent b e.
Proof.
  unfold send, Queue.xQueueSend.
  destruct (List.length q <? BUTTON_QUEUE_SIZE)%nat; cbn [snd]; [| auto].
  intros H. apply in_app_or in H. destruct H as [H | [H | []]]; auto.
Qed.

(** One poll puts no combo long press in the queue. *)
Lemma poll_sends_no_combo_long_press g q pins :
  In COMBO_LONG_PRESS (snd (App.vButtonTask_poll (g, q) pins)) ->
  In COMBO_LONG_PRESS q.
Proof.
  unfold App.vButtonTask_poll. cbn [fst snd].
  unfold Buttons_SendPendingEvents.
  rewrite IsPB2AndPB3LongPress_after_update.
  generalize (Buttons_Update g pins 10). intros g1.
  destruct (CheckLongPress (pb3_state g1)) as [r s] eqn:E.
  repeat match goal with
         | |- context [if ?b then _ else _] => destruct b
         | |- context [send ?q ?b ?e] =>
             let H := fresh in
             pose proof (send_In q b e COMBO_LONG_PRESS) as H;
             destruct (send q b e)
         end; cbn [fst snd] in *; intros HIn; auto;
    match goal with
    | H : _ -> _ \/ _ |- _ => destruct (H HIn) as [? | ?]; [auto | discriminate]
    end.
Qed.

(** What a step never undoes, a run of steps never undoes. *)
Lemma fold_left_back {A B : Type} (f : A -> B -> A) (P : A -> Prop) :
  (forall a b, P (f a b) -> P a) ->
  forall l a, P (fold_left f l a) -> P a.
Proof.
  intros step l. induction l as [| b l IH]; intros a H; [exact H |].
  apply (step a b), IH, H.
Qed.

Lemma polls_send_no_combo_long_press polls gq :
  In COMBO_LONG_PRESS (snd (fold_left App.vButtonTask_poll polls gq)) ->
  In COMBO_LONG_PRESS (snd gq).
Proof.
  apply (fold_left_back App.vButtonTask_poll
           (fun gq => In COMBO_LONG_PRESS (snd gq))).
  intros [g q] p. apply poll_sends_no_combo_long_press.
Qed.

End ComboLongPress.

(** C5.  The polling loop of [vButtonTask] never signals the pair's long
    press: whatever the pins read, no [BUTTON_PB2_AND_PB3] /
    [EVENT_LONG_PRESS] event reaches [xButtonQueue].  With PB2 and PB3
    held together for 3 s and then released, the events sent are a PB3
    long press and, on release, a PB2 click. *)
Theorem combo_long_press_never_sent :
  (forall (at_start : Buttons.Pins) (polls : list Buttons.Pins),
      ~ In Gesture.COMBO_LONG_PRESS (snd (App.vButtonTask at_start polls [])))
  /\ snd (App.vButtonTask Gesture.all_released
            (repeat Gesture.pb2_pb3_down 104) [])
     = [Gesture.PB3_LONG_PRESS]
  /\ snd (App.vButtonTask Gesture.all_released
            (repeat Gesture.pb2_pb3_down 300
             ++ repeat Gesture.all_released 5) [])
     = [Gesture.PB3_LONG_PRESS; Gesture.PB2_CLICK].
Proof.
  split; [| split; vm_compute; reflexivity].
  intros at_start polls H. unfold App.vButtonTask in H.
  apply polls_send_no_combo_long_press in H. exact H.
Qed.

(** * The PWM module *)

Section Pwm.

Import PWM.

Lemma sine_table_bounded : Forall (fun v => 0 <= v <= 100) sine_table.
Proof. unfold sine_table. repeat constructor; lia. Qed.

(** Whatever the index, what is read from the table is in range (outside
    the table the model reads the default, 0). *)
Lemma sine_table_nth (i : nat) : 0 <= nth i sine_table 0 <= 100.
Proof.
  destruct (nth_in_or_default i sine_table 0) as [H | ->]; [| lia].
  pose proof sine_table_bounded as B. rewrite Forall_forall in B.
  apply B, H.
Qed.

(** The index that [PWM_UpdatePulse] forms is inside the table. *)
Lemma table_index_in_range (phase : Z) :
  0 <= uint8 (Z.shiftr (uint16 phase) 12) < 16.
Proof.
  pose proof (uint16_range phase) as R.
  rewrite Z.shiftr_div_pow2 by lia.
  assert (0 <= uint16 phase / 2 ^ 12 < 16).
  { split; [apply Z.div_pos; lia |].
    apply Z.div_lt_upper_bound; lia. }
  unfold uint8. rewrite Z.mod_small; lia.
Qed.

Lemma SetDutyCycle_clamps (d : Z) (p : Statics) :
  pwm_duty_cycle (PWM_SetDutyCycle d p) = Z.min (uint8 d) 100.
Proof.
  unfold PWM_SetDutyCycle. cbn.
  destruct (Z.gtb_spec (uint8 d) 100); lia.
Qed.

Lemma uint8_range x : 0 <= uint8 x < 256.
Proof. unfold uint8. apply Z.mod_pos_bound. lia. Qed.

Lemma UpdatePulse_from_table (e t : Z) (p : Statics) :
  match PWM_UpdatePulse e t p with
  | Some p' => In (pwm_duty_cycle p') sine_table
  | None => uint16 t = 0
  end.
Proof.
  unfold PWM_UpdatePulse.
  destruct (Z.eqb_spec (uint16 t) 0) as [E | E]; [exact E |].
  cbn [pwm_duty_cycle set_pwm_duty_cycle pulse_phase set_pulse_phase].
  apply nth_In.
  pose proof (table_index_in_range
                (pulse_phase p
                 + uint16 ((uint16 e * 65536) mod 2 ^ 32 / uint16 t))) as R.
  change (List.length sine_table) with 16%nat. lia.
Qed.

Lemma ResetPulse_from_table (p : Statics) :
  In (pwm_duty_cycle (PWM_ResetPulse p)) sine_table.
Proof. cbn. auto. Qed.

(** Every call keeps the duty cycle in range. *)
Lemma call_keeps_range (c : Call) (p p' : Statics) :
  0 <= pwm_duty_cycle p <= 100 ->
  call c p = Some p' ->
  0 <= pwm_duty_cycle p' <= 100.
Proof.
  intros R. destruct c; cbn [call].
  - intros [= <-]. cbn. lia.
  - intros [= <-]. exact R.
  - intros [= <-]. exact R.
  - intros [= <-]. rewrite SetDutyCycle_clamps.
    pose proof (uint8_range duty_percent). lia.
  - intros [= <-]. unfold PWM_SetOutputEnabled.
    destruct enabled; cbn; exact R.
  - intros H. pose proof (UpdatePulse_from_table elapsed_ms period_ms p) as T.
    rewrite H in T.
    pose proof sine_table_bounded as B. rewrite Forall_forall in B.
    apply B, T.
  - intros [= <-]. cbn. lia.
  - intros [= <-]. unfold T2Interrupt. cbn.
    repeat match goal with
           | |- context [if ?b then _ else _] => destruct b; cbn
           end; exact R.
Qed.

Lemma calls_keep_range (cs : list Call) (p : Statics) :
  0 <= pwm_duty_cycle p <= 100 ->
  match calls cs p with
  | Some p' => 0 <= pwm_duty_cycle p' <= 100
  | None => existsb divides_by_zero cs = true
  end.
Proof.
  revert p. induction cs as [| c cs IH]; intros p R; cbn [calls existsb].
  - exact R.
  - destruct (call c p) as [p1 |] eqn:E.
    + specialize (IH p1 (call_keeps_range c p p1 R E)).
      destruct (calls cs p1); [exact IH |].
      rewrite IH. apply orb_true_r.
    + destruct c; try discriminate.
      pose proof (UpdatePulse_from_table elapsed_ms period_ms p) as T.
      cbn [call] in E. rewrite E in T. cbn. rewrite T. reflexivity.
Qed.

End Pwm.

(** C10.  [pwm_duty_cycle] stays between 0 and 100: after any sequence of
    calls into pwm.c and Timer2 interrupts from reset (a sequence has no
    result only if it calls [PWM_UpdatePulse] with a period of 0).
    [PWM_SetDutyCycle] stores its argument clamped to 100;
    [PWM_UpdatePulse] and [PWM_ResetPulse] store an entry of [sine_table];
    and the table's 16 entries are all between 0 and 100. *)
Theorem pwm_duty_cycle_in_range :
  (forall cs : list PWM.Call,
      match PWM.calls cs PWM.at_reset with
      | Some p => 0 <= PWM.pwm_duty_cycle p <= 100
      | None => existsb PWM.divides_by_zero cs = true
      end)
  /\ (forall (d : Z) (p : PWM.Statics),
         PWM.pwm_duty_cycle (PWM.PWM_SetDutyCycle d p) = Z.min (uint8 d) 100)
  /\ (forall (e t : Z) (p : PWM.Statics),
         match PWM.PWM_UpdatePulse e t p with
         | Some p' => In (PWM.pwm_duty_cycle p') PWM.sine_table
         | None => uint16 t = 0
         end)
  /\ (forall p : PWM.Statics,
         In (PWM.pwm_duty_cycle (PWM.PWM_ResetPulse p)) PWM.sine_table)
  /\ List.length PWM.sine_table = 16%nat
  /\ Forall (fun v => 0 <= v <= 100) PWM.sine_table.
Proof.
  split; [| split; [| split; [| split; [| split]]]].
  - intros cs. apply calls_keep_range. cbn. lia.
  - apply SetDutyCycle_clamps.
  - apply UpdatePulse_from_table.
  - apply ResetPulse_from_table.
  - reflexivity.
  - apply sine_table_bounded.
Qed.

(** * The time-input task *)

Section TimeInput.

Import App Scenario.

Lemma run_bind {A B : Type} (c : Task A) (f : A -> Task B) (w : World) :
  runState (bind c f) w
  = runState (f (fst (runState c w))) (snd (runState c w)).
Proof. cbn. destruct (runState c w). reflexivity. Qed.

Lemma run_ret {A : Type} (a : A) (w : World) : runState (ret a) w = (a, w).
Proof. reflexivity. Qed.

(** [SafeDisp2String] writes its string when the terminal mutex is
    taken, and touches nothing else but the list of coming takes. *)
Lemma SafeDisp2String_run (str : string) (w : World) :
  runState (SafeDisp2String str) w
  = (tt, match contention w with
         | [] => set_terminal (terminal w ++ [str]) w
         | true :: rest =>
             set_terminal (terminal w ++ [str]) (set_contention rest w)
         | false :: rest => set_contention rest w
         end).
Proof.
  destruct w as [st cs q p l1 t d c]. unfold SafeDisp2String, xSemaphoreTake.
  cbn. destruct c as [| [] rest]; reflexivity.
Qed.




Lemma SafeDisp2String_keeps (str : string) (w : World) :
  let w' := snd (runState (SafeDisp2String str) w) in
  g_SystemState w' = g_SystemState w
  /\ g_CountdownSeconds w' = g_CountdownSeconds w
  /\ xButtonQueue w' = xButtonQueue w
  /\ delayed_ms w' = delayed_ms w
  /\ (next_take_succeeds w -> terminal w' = terminal w ++ [str]).
Proof.
  cbv zeta. rewrite SafeDisp2String_run. unfold next_take_succeeds.
  destruct w as [st cs q p l1 t d c]. cbn.
  destruct c as [| [] rest]; cbn; repeat split; auto; discriminate.
Qed.

End TimeInput.




(** * The countdown task *)

Section Countdown.

Import App Scenario.
Import MonadNotation.
Local Open Scope monad_scope.

Lemma same_shared_trans w1 w2 w3 :
  same_shared w1 w2 -> same_shared w2 w3 -> same_shared w1 w3.
Proof.
  unfold same_shared. intros (A1 & A2 & A3) (B1 & B2 & B3).
  repeat split; congruence.
Qed.

Lemma quiet_ret {A : Type} (a : A) : quiet (ret a).
Proof. intros w. repeat split. Qed.

Lemma quiet_bind {A B : Type} (c : Task A) (f : A -> Task B) :
  quiet c -> (forall a, quiet (f a)) -> quiet (bind c f).
Proof.
  intros Hc Hf w. rewrite run_bind.
  eapply same_shared_trans; [apply Hc | apply Hf].
Qed.

Lemma quiet_get : quiet (get : Task World).
Proof. intros w. repeat split. Qed.

Lemma quiet_xSemaphoreTake : quiet xSemaphoreTake.
Proof.
  intros [st cs q p l1 t d c]. unfold xSemaphoreTake. cbn.
  destruct c; cbn; repeat split.
Qed.

Lemma quiet_xSemaphoreGive : quiet xSemaphoreGive.
Proof. intros w. repeat split. Qed.

Lemma quiet_SafeDisp2String str : quiet (SafeDisp2String str).
Proof.
  intros w. destruct (SafeDisp2String_keeps str w) as (H1 & H2 & H3 & _).
  repeat split; assumption.
Qed.

Lemma quiet_vTaskDelay ms : quiet (vTaskDelay ms).
Proof. intros w. repeat split. Qed.

Lemma quiet_LED1_On : quiet LED1_On.
Proof. intros w. repeat split. Qed.

Lemma quiet_LED1_Off : quiet LED1_Off.
Proof. intros w. repeat split. Qed.

Lemma quiet_in_pwm f : quiet (in_pwm f).
Proof. intros w. repeat split. Qed.

Lemma quiet_if {A : Type} (b : bool) (c1 c2 : Task A) :
  quiet c1 -> quiet c2 -> quiet (if b then c1 else c2).
Proof. destruct b; auto. Qed.

Create HintDb quiet.
#[local] Hint Resolve quiet_ret quiet_get quiet_xSemaphoreTake
  quiet_xSemaphoreGive quiet_SafeDisp2String quiet_vTaskDelay quiet_LED1_On
  quiet_LED1_Off quiet_in_pwm : quiet.

Ltac quiet_steps :=
  cbv zeta;
  repeat first [ solve [auto with quiet]
               | apply quiet_if
               | apply quiet_bind; [| intros ?; cbv zeta] ].

(** A turn of the countdown loop writes neither the state nor the stored
    time and does not read the button queue. *)
Lemma quiet_countdown_turn remaining led1_on :
  quiet (countdown_turn remaining led1_on).
Proof. unfold countdown_turn. quiet_steps. Qed.

Lemma quiet_countdown_loop fuel remaining led1_on :
  quiet (countdown_loop fuel remaining led1_on).
Proof.
  revert remaining led1_on.
  induction fuel as [| fuel IH]; intros remaining led1_on; cbn [countdown_loop].
  - destruct (remaining >? 0); auto with quiet.
  - destruct (remaining >? 0); [| auto with quiet].
    apply quiet_bind; [apply quiet_countdown_turn | intros r; apply IH].
Qed.

(** How the steps of the task move the clock of delays. *)
Lemma delayed_SafeDisp2String str w :
  delayed_ms (snd (runState (SafeDisp2String str) w)) = delayed_ms w.
Proof. apply (SafeDisp2String_keeps str w). Qed.

Lemma delayed_vTaskDelay ms w :
  delayed_ms (snd (runState (vTaskDelay ms) w)) = delayed_ms w + ms.
Proof. reflexivity. Qed.

Lemma delayed_LED1 (b : bool) w :
  delayed_ms (snd (runState (if b then LED1_On else LED1_Off) w))
  = delayed_ms w.
Proof. destruct b; reflexivity. Qed.

Lemma delayed_in_pwm f w :
  delayed_ms (snd (runState (in_pwm f) w)) = delayed_ms w.
Proof. reflexivity. Qed.

Create Rewrite HintDb delayed.
#[local] Hint Rewrite delayed_SafeDisp2String delayed_vTaskDelay delayed_LED1
  delayed_in_pwm : delayed.

(** What a turn of the loop computes: one second passes and [remaining]
    goes down by one. *)
Lemma countdown_turn_result remaining led1_on w :
  fst (runState (countdown_turn remaining led1_on) w)
  = (uint16 (remaining - 1), negb led1_on)
  /\ delayed_ms (snd (runState (countdown_turn remaining led1_on) w))
     = delayed_ms w + 1000.
Proof.
  unfold countdown_turn. rewrite !run_bind, run_ret. cbn [fst snd].
  split; [reflexivity |].
  autorewrite with delayed. reflexivity.
Qed.

(** The countdown loop has fuel enough and ends at 0, one second per
    unit of [remaining] later. *)
Lemma countdown_loop_ends fuel remaining led1_on w :
  0 <= remaining < 65536 ->
  (Z.to_nat remaining <= fuel)%nat ->
  exists led1_on',
    fst (runState (countdown_loop fuel remaining led1_on) w)
    = Some (0, led1_on')
    /\ delayed_ms (snd (runState (countdown_loop fuel remaining led1_on) w))
       = delayed_ms w + 1000 * remaining.
Proof.
  revert remaining led1_on w.
  induction fuel as [| fuel IH]; intros remaining led1_on w R F;
    cbn [countdown_loop].
  - assert (remaining = 0) by lia. subst. cbn. eexists. split; [eauto | lia].
  - destruct (Z.gtb_spec remaining 0) as [G | G].
    + rewrite run_bind.
      destruct (countdown_turn_result remaining led1_on w) as [E D].
      rewrite E. cbn [fst snd]. rewrite uint16_small by lia.
      destruct (IH (remaining - 1) (negb led1_on)
                   (snd (runState (countdown_turn remaining led1_on) w)))
        as (l' & E' & D'); [lia | lia |].
      exists l'. split; [exact E' |]. rewrite D', D. lia.
    + assert (remaining = 0) by lia. subst. cbn.
      eexists. split; [eauto | lia].
Qed.

Lemma quiet_settles {A : Type} v (c : Task A) : quiet c -> settles v c.
Proof. intros Q w. destruct (Q w) as (H1 & _ & H3). auto. Qed.

Lemma settles_bind {A B : Type} v (c : Task A) (f : A -> Task B) :
  settles v c -> (forall a, settles v (f a)) -> settles v (bind c f).
Proof.
  intros Hc Hf w. rewrite run_bind.
  destruct (Hc w) as [C1 C2].
  destruct (Hf (fst (runState c w)) (snd (runState c w))) as [F1 F2].
  split; [| congruence].
  destruct F1 as [F1 | F1]; [left; exact F1 |].
  destruct C1 as [C1 | C1]; [left | right]; congruence.
Qed.

Lemma settles_write v : settles v (write_SystemState v).
Proof.
  intros [st cs q p l1 t d c]. unfold write_SystemState, xSemaphoreTake.
  cbn. destruct c as [| [] rest]; cbn; auto.
Qed.

#[local] Hint Resolve settles_write : quiet.

(** A turn of the countdown task leaves [g_SystemState] as it was or at
    [STATE_WAITING]: the task writes no other state.  It does not touch
    the button queue. *)
Lemma settles_vCountdownTask_turn led1_on :
  settles STATE_WAITING (vCountdownTask_turn led1_on).
Proof.
  unfold vCountdownTask_turn.
  apply settles_bind; [apply quiet_settles; auto with quiet | intros ok].
  apply settles_bind; [apply quiet_settles; quiet_steps | intros remaining].
  destruct (remaining =? 0).
  - apply settles_bind; [apply quiet_settles; auto with quiet | intros _].
    apply settles_bind; [apply settles_write | intros _].
    apply quiet_settles; auto with quiet.
  - repeat (apply settles_bind;
            [apply quiet_settles; quiet_steps; fail | intros ?]).
    apply settles_bind;
      [apply quiet_settles, quiet_countdown_loop | intros [[r l] |]].
    + repeat (apply settles_bind;
              [apply quiet_settles; quiet_steps; fail | intros ?]).
      apply settles_bind; [apply settles_write | intros _].
      apply quiet_settles; auto with quiet.
    + apply quiet_settles; auto with quiet.
Qed.

(** A turn of the countdown task has a result: the loop is given fuel
    enough. *)
Lemma vCountdownTask_turn_returns led1_on w :
  0 <= g_CountdownSeconds w < 65536 ->
  fst (runState (vCountdownTask_turn led1_on) w) <> None.
Proof.
  intros R. unfold vCountdownTask_turn.
  rewrite run_bind. cbv beta. rewrite run_bind. cbv beta.
  set (w1 := snd (runState xSemaphoreTake w)).
  assert (Q1 : same_shared w w1) by apply quiet_xSemaphoreTake.
  destruct Q1 as (_ & Q1 & _).
  set (c2 := if fst (runState xSemaphoreTake w) then _ else _).
  assert (R2 : 0 <= fst (runState c2 w1) < 65536).
  { subst c2. destruct (fst (runState xSemaphoreTake w)); cbn; lia. }
  revert R2.
  generalize (fst (runState c2 w1)). generalize (snd (runState c2 w1)).
  intros w2 remaining R2.
  destruct (remaining =? 0).
  - rewrite !run_bind, run_ret. cbn. discriminate.
  - rewrite !run_bind.
    match goal with
    | |- context [runState (countdown_loop ?f ?r ?l) ?w0] =>
        destruct (countdown_loop_ends f r l w0 R2 (le_n _)) as (l' & E & _);
        rewrite E
    end.
    rewrite !run_bind, run_ret. cbn. discriminate.
Qed.

End Countdown.

(** C1.  On the code, a countdown does not pass through
    [STATE_COMPLETED].  Each turn of the loop waits one second and takes
    one from [remaining]; started with 3 seconds stored, the loop ends
    after 3000 ms with [g_SystemState] still [STATE_COUNTDOWN], and the
    task then writes [STATE_WAITING] at once, with no further delay.  In
    general a turn of the task leaves the state as it was or at
    [STATE_WAITING]. *)
Theorem countdown_ends_in_waiting :
  (forall remaining led1_on w,
      fst (fst (runState (App.countdown_turn remaining led1_on) w))
      = uint16 (remaining - 1)
      /\ App.delayed_ms
           (snd (runState (App.countdown_turn remaining led1_on) w))
         = App.delayed_ms w + 1000)
  /\ (forall led1_on w,
         App.g_SystemState
           (snd (runState (App.vCountdownTask_turn led1_on) w))
         = STATE_WAITING
         \/ App.g_SystemState
              (snd (runState (App.vCountdownTask_turn led1_on) w))
            = App.g_SystemState w)
  /\ (let after_loop :=
        runState (App.countdown_loop 3 3 false) (Scenario.counting []) in
      fst after_loop = Some (0, true)
      /\ App.g_SystemState (snd after_loop) = STATE_COUNTDOWN
      /\ App.delayed_ms (snd after_loop) = 3000)
  /\ (let after_turn :=
        snd (runState (App.vCountdownTask_turn false)
                      (Scenario.counting [])) in
      App.g_SystemState after_turn = STATE_WAITING
      /\ App.delayed_ms after_turn = 3000).
Proof.
  split; [| split; [| split]].
  - intros remaining led1_on w.
    destruct (countdown_turn_result remaining led1_on w) as [E D].
    rewrite E. auto.
  - intros led1_on w. apply (settles_vCountdownTask_turn led1_on w).
  - vm_compute. auto.
  - vm_compute. auto.
Qed.

(** C2.  On the code, the countdown task takes no notice of PB3.  A turn
    of the countdown loop leaves [g_SystemState] and [xButtonQueue] as
    they were, whatever is in the queue, and so does the task as far as
    the queue goes.  Started with 3 seconds stored and a PB3 click
    waiting, the state after the first second is [STATE_COUNTDOWN], not
    [STATE_PAUSED], and the click is still in the queue; with a PB3 long
    press waiting, the state after the first second is [STATE_COUNTDOWN],
    not [STATE_WAITING], the count goes on at 2 and the task reaches
    [STATE_WAITING] only when the 3 seconds have run out, the long press
    still in the queue. *)
Theorem countdown_ignores_pb3 :
  (forall remaining led1_on w,
      App.g_SystemState
        (snd (runState (App.countdown_turn remaining led1_on) w))
      = App.g_SystemState w
      /\ App.xButtonQueue
           (snd (runState (App.countdown_turn remaining led1_on) w))
         = App.xButtonQueue w)
  /\ (forall led1_on w,
         App.xButtonQueue
           (snd (runState (App.vCountdownTask_turn led1_on) w))
         = App.xButtonQueue w)
  /\ (let r := runState (App.countdown_turn 3 false)
                        (Scenario.counting [Gesture.PB3_CLICK]) in
      fst r = (2, true)
      /\ App.g_SystemState (snd r) = STATE_COUNTDOWN
      /\ App.xButtonQueue (snd r) = [Gesture.PB3_CLICK])
  /\ (let r := runState (App.countdown_turn 3 false)
                        (Scenario.counting [Gesture.PB3_LONG_PRESS]) in
      fst r = (2, true)
      /\ App.g_SystemState (snd r) = STATE_COUNTDOWN
      /\ App.xButtonQueue (snd r) = [Gesture.PB3_LONG_PRESS])
  /\ (let w := snd (runState (App.vCountdownTask_turn false)
                             (Scenario.counting [Gesture.PB3_LONG_PRESS])) in
      App.g_SystemState w = STATE_WAITING
      /\ App.delayed_ms w = 3000
      /\ App.xButtonQueue w = [Gesture.PB3_LONG_PRESS]).
Proof.
  split; [| split; [| split; [| split]]].
  - intros remaining led1_on w.
    destruct (quiet_countdown_turn remaining led1_on w) as (H1 & _ & H3).
    auto.
  - intros led1_on w. apply (settles_vCountdownTask_turn led1_on w).
  - vm_compute. auto.
  - vm_compute. auto.
  - vm_compute. auto.
Qed.

(** * Presses seen through the polling loop *)

Section Presses.

Import Buttons Gesture Trace.

Lemma fold_left_cons {A B : Type} (f : A -> B -> A) (x : B) (l : list B)
      (a : A) :
  fold_left f (x :: l) a = fold_left f l (f a x).
Proof. reflexivity. Qed.

Lemma poll_on_app gq p1 p2 :
  poll_on gq (p1 ++ p2) = poll_on (poll_on gq p1) p2.
Proof. unfold poll_on. apply fold_left_app. Qed.

Lemma poll_on_cons gq p ps :
  poll_on gq (p :: ps) = poll_on (App.vButtonTask_poll gq p) ps.
Proof. unfold poll_on. apply fold_left_cons. Qed.

Lemma vButtonTask_poll_on at_start polls q :
  App.vButtonTask at_start polls q = poll_on (Buttons_Init at_start, q) polls.
Proof. reflexivity. Qed.

(** A poll after whose update nothing is ready sends nothing. *)
Lemma poll_quiet g q pins :
  ready (Buttons_Update g pins 10) = [] ->
  App.vButtonTask_poll (g, q) pins = (Buttons_Update g pins 10, q).
Proof.
  intros H. unfold App.vButtonTask_poll. cbn [fst snd].
  rewrite (send_pending_events_idle _ q H). reflexivity.
Qed.

(** At rest with the pins released, a poll changes nothing. *)
Lemma idle_poll (g : Statics) (q : list ButtonEvent_t) :
  idle g = true -> App.vButtonTask_poll (g, q) all_released = (g, q).
Proof.
  destruct g as [[c1 l1 r1 n1 d1 k1 p1] [c2 l2 r2 n2 d2 k2 p2]
                 [c3 l3 r3 n3 d3 k3 p3] cc cl cd w2 w3].
  unfold idle, at_rest. cbn [current_state raw_state debounce_counter
    click_pending pb1_state pb2_state pb3_state pb2_pb3_combo_click_pending
    pb2_pb3_combo_long_press_sent pb2_pb3_combo_duration
    pb2_was_pressed_in_combo pb3_was_pressed_in_combo].
  intros H.
  repeat match goal with
         | H : _ && _ = true |- _ => apply andb_prop in H; destruct H
         | H : negb ?b = true |- _ => apply negb_true_iff in H; subst b
         | H : (?x =? 0) = true |- _ => apply Z.eqb_eq in H; subst x
         end.
  vm_compute. reflexivity.
Qed.

Lemma idle_polls (g : Statics) (q : list ButtonEvent_t) (m : nat) :
  idle g = true -> poll_on (g, q) (repeat all_released m) = (g, q).
Proof.
  intros H. induction m as [| m IH]; [reflexivity |].
  cbn [repeat]. rewrite poll_on_cons, (idle_poll g q H). exact IH.
Qed.

(** A button other than PB3 held: a poll only adds to its hold time (and
    for PB2 to the time of the combo window). *)
Lemma held_poll (b : ButtonId_t) (d c : Z) q :
  b = BUTTON_PB1 \/ b = BUTTON_PB2 ->
  App.vButtonTask_poll (one_button b (held true 0 d false) c, q) (only b)
  = (one_button b (held true 0 (uint16 (d + 10)) false) (uint16 (c + 10)), q).
Proof. intros [-> | ->]; reflexivity. Qed.

Lemma held_start (b : ButtonId_t) :
  b = BUTTON_PB1 \/ b = BUTTON_PB2 \/ b = BUTTON_PB3 ->
  poll_on (Buttons_Init all_released, []) (repeat (only b) 5)
  = (one_button b (held true 0 10 false) 10, []).
Proof. intros [-> | [-> | ->]]; vm_compute; reflexivity. Qed.

Lemma held_reached (b : ButtonId_t) (n : nat) :
  b = BUTTON_PB1 \/ b = BUTTON_PB2 ->
  (5 <= n)%nat ->
  exists d c,
    poll_on (Buttons_Init all_released, []) (repeat (only b) n)
    = (one_button b (held true 0 d false) c, []).
Proof.
  intros Hb H. replace n with (5 + (n - 5))%nat by lia.
  generalize (n - 5)%nat. intros k.
  rewrite repeat_app, poll_on_app, held_start by tauto.
  generalize 10 at 1. generalize 10. induction k as [| k IH]; intros c d.
  - exists d, c. reflexivity.
  - cbn [repeat]. rewrite poll_on_cons, held_poll by exact Hb. apply IH.
Qed.

(** The button let go: four released readings are counted, the fifth
    commits the release and the click goes out on that poll. *)
Lemma held_released (b : ButtonId_t) (d c : Z) :
  b = BUTTON_PB1 \/ b = BUTTON_PB2 ->
  poll_on (one_button b (held true 0 d false) c, []) (repeat all_released 5)
  = (one_button b (let_go false) 0, [mkButtonEvent b EVENT_CLICK]).
Proof.
  intros Hb. cbn [repeat].
  rewrite poll_on_cons.
  replace (App.vButtonTask_poll (one_button b (held true 0 d false) c, [])
             all_released)
    with (one_button b (held false 1 (uint16 (d + 10)) false)
                     (uint16 (c + 10)), @nil ButtonEvent_t)
    by (destruct Hb as [-> | ->]; reflexivity).
  rewrite poll_on_cons.
  replace (App.vButtonTask_poll
             (one_button b (held false 1 (uint16 (d + 10)) false)
                         (uint16 (c + 10)), []) all_released)
    with (one_button b (held false 2 (uint16 (uint16 (d + 10) + 10)) false)
                     (uint16 (uint16 (c + 10) + 10)), @nil ButtonEvent_t)
    by (destruct Hb as [-> | ->]; reflexivity).
  generalize (uint16 (uint16 (d + 10) + 10)).
  generalize (uint16 (uint16 (c + 10) + 10)). clear d c. intros c d.
  rewrite poll_on_cons.
  replace (App.vButtonTask_poll (one_button b (held false 2 d false) c, [])
             all_released)
    with (one_button b (held false 3 (uint16 (d + 10)) false)
                     (uint16 (c + 10)), @nil ButtonEvent_t)
    by (destruct Hb as [-> | ->]; reflexivity).
  rewrite poll_on_cons.
  replace (App.vButtonTask_poll
             (one_button b (held false 3 (uint16 (d + 10)) false)
                         (uint16 (c + 10)), []) all_released)
    with (one_button b (held false 4 (uint16 (uint16 (d + 10) + 10)) false)
                     (uint16 (uint16 (c + 10) + 10)), @nil ButtonEvent_t)
    by (destruct Hb as [-> | ->]; reflexivity).
  rewrite poll_on_cons.
  destruct Hb as [-> | ->]; reflexivity.
Qed.

End Presses.

(** X1.  PB1 and PB2 have no long press of their own: either of them,
    held alone for any number of polls from the fifth on (however long)
    and then released for five polls or more, puts exactly one event in
    the queue, its click. *)
Theorem lone_press_is_one_click (b : ButtonId_t) (n m : nat) :
  b = BUTTON_PB1 \/ b = BUTTON_PB2 ->
  (5 <= n)%nat ->
  (5 <= m)%nat ->
  snd (App.vButtonTask Gesture.all_released
         (repeat (Trace.only b) n ++ repeat Gesture.all_released m) [])
  = [mkButtonEvent b EVENT_CLICK].
Proof.
  intros Hb Hn Hm. rewrite vButtonTask_poll_on, poll_on_app.
  destruct (held_reached b n Hb Hn) as (d & c & ->).
  replace m with (5 + (m - 5))%nat by lia.
  rewrite repeat_app, poll_on_app, (held_released b d c Hb).
  rewrite idle_polls; [reflexivity |].
  destruct Hb as [-> | ->]; reflexivity.
Qed.

Lemma lone_press_is_one_click_witness :
  snd (App.vButtonTask Gesture.all_released
         (repeat (Trace.only BUTTON_PB1) 150
          ++ repeat Gesture.all_released 6) [])
  = [mkButtonEvent BUTTON_PB1 EVENT_CLICK].
Proof.
  apply (lone_press_is_one_click BUTTON_PB1 150 6);
    [left; reflexivity | lia | lia].
Defined.

Section LongPress.

Import Buttons Gesture Trace.

Lemma settles_with_true polls expected :
  settles_with polls expected = true ->
  exists g, poll_on (Buttons_Init all_released, []) polls = (g, expected)
            /\ idle g = true.
Proof.
  unfold settles_with. rewrite vButtonTask_poll_on.
  destruct (poll_on (Buttons_Init all_released, []) polls) as [g q].
  cbn [fst snd]. intros H. apply andb_prop in H. destruct H as [Hi Hq].
  destruct (list_eq_dec ButtonEvent_eq_dec q expected) as [-> |];
    [| discriminate].
  exists g. auto.
Qed.

(** What settles after five released polls stays settled for more. *)
Lemma settles_with_longer polls expected (m : nat) :
  settles_with (polls ++ repeat all_released 5) expected = true ->
  (5 <= m)%nat ->
  snd (App.vButtonTask all_released (polls ++ repeat all_released m) [])
  = expected.
Proof.
  intros H Hm. apply settles_with_true in H. destruct H as (g & E & Hg).
  replace m with (5 + (m - 5))%nat by lia.
  rewrite repeat_app, app_assoc, vButtonTask_poll_on, poll_on_app, E.
  rewrite (idle_polls g _ _ Hg). reflexivity.
Qed.

(** PB3 with its long press reported has nothing ready, whatever its hold
    time. *)
Lemma reported_ready (r : bool) (k d c : Z) :
  ready (one_button BUTTON_PB3 (held r k d true) c) = [].
Proof.
  unfold ready, priority, due, long_press_due, combo_long_press_due.
  cbn. rewrite andb_false_r. reflexivity.
Qed.

Lemma reported_poll (d c : Z) q :
  App.vButtonTask_poll (one_button BUTTON_PB3 (held true 0 d true) c, q)
                       (only BUTTON_PB3)
  = (one_button BUTTON_PB3 (held true 0 (uint16 (d + 10)) true)
                (uint16 (c + 10)), q).
Proof.
  rewrite poll_quiet; [reflexivity |].
  change (Buttons_Update (one_button BUTTON_PB3 (held true 0 d true) c)
            (only BUTTON_PB3) 10)
    with (one_button BUTTON_PB3 (held true 0 (uint16 (d + 10)) true)
                     (uint16 (c + 10))).
  apply reported_ready.
Qed.

Lemma reported_start :
  poll_on (Buttons_Init all_released, []) (repeat (only BUTTON_PB3) 104)
  = (one_button BUTTON_PB3 (held true 0 1000 true) 1000, [PB3_LONG_PRESS]).
Proof. vm_compute. reflexivity. Qed.

Lemma reported_reached (n : nat) :
  (104 <= n)%nat ->
  exists d c,
    poll_on (Buttons_Init all_released, []) (repeat (only BUTTON_PB3) n)
    = (one_button BUTTON_PB3 (held true 0 d true) c, [PB3_LONG_PRESS]).
Proof.
  intros H. replace n with (104 + (n - 104))%nat by lia.
  generalize (n - 104)%nat. intros k.
  rewrite repeat_app, poll_on_app, reported_start.
  generalize 1000 at 1. generalize 1000. induction k as [| k IH]; intros c d.
  - exists d, c. reflexivity.
  - cbn [repeat]. rewrite poll_on_cons, reported_poll. apply IH.
Qed.

(** One released reading of PB3 counted while its release is pending. *)
Lemma reported_release_step (r : bool) (k d c : Z) q :
  0 <= k < 4 ->
  App.vButtonTask_poll (one_button BUTTON_PB3 (held r k d true) c, q)
                       all_released
  = (one_button BUTTON_PB3 (held false (k + 1) (uint16 (d + 10)) true)
                (uint16 (c + 10)), q).
Proof.
  intros Hk. rewrite poll_quiet.
  - assert (K : k = 0 \/ k = 1 \/ k = 2 \/ k = 3) by lia.
    destruct K as [-> | [-> | [-> | ->]]]; reflexivity.
  - replace (Buttons_Update (one_button BUTTON_PB3 (held r k d true) c)
               all_released 10)
      with (one_button BUTTON_PB3 (held false (k + 1) (uint16 (d + 10)) true)
                       (uint16 (c + 10))).
    + apply reported_ready.
    + assert (K : k = 0 \/ k = 1 \/ k = 2 \/ k = 3) by lia.
      destruct K as [-> | [-> | [-> | ->]]]; reflexivity.
Qed.

Lemma reported_released (d c : Z) q :
  exists g,
    poll_on (one_button BUTTON_PB3 (held true 0 d true) c, q)
            (repeat all_released 5) = (g, q)
    /\ idle g = true.
Proof.
  exists (one_button BUTTON_PB3 (let_go true) 0). split; [| reflexivity].
  cbn [repeat].
  rewrite poll_on_cons, reported_release_step by lia.
  rewrite poll_on_cons, reported_release_step by lia.
  rewrite poll_on_cons, reported_release_step by lia.
  rewrite poll_on_cons, reported_release_step by lia.
  rewrite poll_on_cons. cbn [Z.add Pos.add Pos.succ].
  rewrite poll_quiet; reflexivity.
Qed.

Lemma pb3_short_and_edge :
  forallb
    (fun n =>
       settles_with (repeat (only BUTTON_PB3) n ++ repeat all_released 5)
                    (if (n <? 100)%nat then [PB3_CLICK]
                     else [PB3_LONG_PRESS]))
    (seq 5 99) = true.
Proof. vm_compute. reflexivity. Qed.

End LongPress.

(** X2.  PB3 held alone for [n] polls (five or more) and released for five
    polls or more puts exactly one event in the queue: its click when it
    was held for fewer than 100 polls, that is for less than 1000 ms of
    readings, and its long press otherwise, however long it is held.  The
    debounce delays of press and release cancel: the verdict goes by the
    time the pin itself read pressed. *)
Theorem pb3_click_or_long_press (n m : nat) :
  (5 <= n)%nat ->
  (5 <= m)%nat ->
  snd (App.vButtonTask Gesture.all_released
         (repeat (Trace.only BUTTON_PB3) n ++ repeat Gesture.all_released m)
         [])
  = if (n <? 100)%nat then [Gesture.PB3_CLICK] else [Gesture.PB3_LONG_PRESS].
Proof.
  intros Hn Hm. destruct (Nat.lt_ge_cases n 104) as [Hs | Hl].
  - apply settles_with_longer; [| exact Hm].
    pose proof pb3_short_and_edge as F. rewrite forallb_forall in F.
    apply (F n). apply in_seq. lia.
  - destruct (Nat.ltb_spec n 100) as [? | _]; [lia |].
    rewrite vButtonTask_poll_on, poll_on_app.
    destruct (reported_reached n Hl) as (d & c & ->).
    replace m with (5 + (m - 5))%nat by lia.
    rewrite repeat_app, poll_on_app.
    destruct (reported_released d c [Gesture.PB3_LONG_PRESS]) as (g & -> & Hg).
    rewrite (idle_polls g _ _ Hg). reflexivity.
Qed.

Lemma pb3_click_or_long_press_witness :
  snd (App.vButtonTask Gesture.all_released
         (repeat (Trace.only BUTTON_PB3) 250
          ++ repeat Gesture.all_released 7) [])
  = [Gesture.PB3_LONG_PRESS].
Proof. apply (pb3_click_or_long_press 250 7); lia. Defined.

Section ComboPress.

Import Buttons Gesture Trace.

Lemma combo_click_runs :
  forallb
    (fun b =>
       forallb
         (fun k =>
            forallb
              (fun n =>
                 settles_with (repeat (only b) k ++ repeat pb2_pb3_down n
                               ++ repeat all_released 5)
                              [COMBO_CLICK])
              (seq 5 (95 - k)))
         (seq 0 95))
    [BUTTON_PB2; BUTTON_PB3] = true.
Proof. vm_compute. reflexivity. Qed.

End ComboPress.

(** X3.  The combined click tolerates a staggered press: PB2 or PB3 down
    alone for [k] polls, then both down for [n] polls (five or more), then
    both released together for five polls or more, the whole press lasting
    fewer than 100 polls, puts exactly one event in the queue, the combo
    click, and no click of either button. *)
Theorem staggered_combo_click (b : ButtonId_t) (k n m : nat) :
  b = BUTTON_PB2 \/ b = BUTTON_PB3 ->
  (5 <= n)%nat ->
  (k + n < 100)%nat ->
  (5 <= m)%nat ->
  snd (App.vButtonTask Gesture.all_released
         (repeat (Trace.only b) k ++ repeat Gesture.pb2_pb3_down n
          ++ repeat Gesture.all_released m) [])
  = [Gesture.COMBO_CLICK].
Proof.
  intros Hb Hn Hkn Hm.
  rewrite app_assoc. apply settles_with_longer; [| exact Hm].
  rewrite <- app_assoc.
  pose proof combo_click_runs as F. rewrite forallb_forall in F.
  assert (Fb := F b). rewrite forallb_forall in Fb.
  assert (Fk := Fb ltac:(destruct Hb as [-> | ->]; cbn; auto) k).
  rewrite forallb_forall in Fk.
  apply Fk; apply in_seq; lia.
Qed.

Lemma staggered_combo_click_witness :
  snd (App.vButtonTask Gesture.all_released
         (repeat (Trace.only BUTTON_PB2) 3 ++ repeat Gesture.pb2_pb3_down 30
          ++ repeat Gesture.all_released 5) [])
  = [Gesture.COMBO_CLICK].
Proof.
  apply (staggered_combo_click BUTTON_PB2 3 30 5);
    [left; reflexivity | lia | lia | lia].
Defined.

(** * The queue and the pending flags *)

Section QueueDiscipline.

Import Buttons Gesture Trace.

(** One call sends nothing or appends one event to a queue with room. *)
Lemma send_pending_events_queue (g : Statics) (q : list ButtonEvent_t) :
  snd (Buttons_SendPendingEvents g q) = q
  /\ fst (fst (Buttons_SendPendingEvents g q)) = false
  \/ exists e,
      snd (Buttons_SendPendingEvents g q) = q ++ [e]
      /\ fst (fst (Buttons_SendPendingEvents g q)) = true
      /\ (List.length q < BUTTON_QUEUE_SIZE)%nat.
Proof.
  destruct (ready g) as [| e rest] eqn:R.
  - left. rewrite (send_pending_events_idle g q R). auto.
  - destruct (send_pending_events_priority g q e rest R) as (g' & E & _).
    rewrite E. cbn [fst snd].
    destruct (Nat.ltb_spec (List.length q) BUTTON_QUEUE_SIZE) as [L | L].
    + right. exists e. auto.
    + left. auto.
Qed.

(** What every step keeps, a run of steps keeps. *)
Lemma fold_left_keeps {A B : Type} (f : A -> B -> A) (R : A -> A -> Prop) :
  (forall a, R a a) ->
  (forall a b c, R a b -> R b c -> R a c) ->
  (forall a b, R a (f a b)) ->
  forall l a, R a (fold_left f l a).
Proof.
  intros Hrefl Htrans Hstep l.
  induction l as [| b l IH]; intros a; [apply Hrefl |].
  cbn [fold_left]. eapply Htrans; [apply Hstep | apply IH].
Qed.

Lemma poll_queue (gq : Statics * list ButtonEvent_t) (pins : Pins) :
  exists tail,
    snd (App.vButtonTask_poll gq pins) = snd gq ++ tail
    /\ (List.length tail <= 1)%nat
    /\ ((List.length (snd gq) <= BUTTON_QUEUE_SIZE)%nat ->
        (List.length (snd (App.vButtonTask_poll gq pins))
         <= BUTTON_QUEUE_SIZE)%nat).
Proof.
  destruct gq as [g q]. unfold App.vButtonTask_poll. cbn [fst snd].
  generalize (Buttons_Update g pins 10). intros g1.
  destruct (send_pending_events_queue g1 q) as [[E _] | (e & E & _ & L)];
    destruct (Buttons_SendPendingEvents g1 q) as [[r g2] q2];
    cbn [fst snd] in *; subst q2.
  - exists []. rewrite app_nil_r. cbn. auto.
  - exists [e]. rewrite length_app. cbn. repeat split; lia.
Qed.

Lemma polls_queue (polls : list Pins) (gq : Statics * list ButtonEvent_t) :
  exists tail,
    snd (poll_on gq polls) = snd gq ++ tail
    /\ (List.length tail <= List.length polls)%nat
    /\ ((List.length (snd gq) <= BUTTON_QUEUE_SIZE)%nat ->
        (List.length (snd (poll_on gq polls)) <= BUTTON_QUEUE_SIZE)%nat).
Proof.
  revert gq. induction polls as [| p polls IH]; intros gq.
  - exists []. rewrite app_nil_r. cbn [List.length]. auto.
  - rewrite poll_on_cons.
    destruct (poll_queue gq p) as (t1 & E1 & L1 & B1).
    destruct (IH (App.vButtonTask_poll gq p)) as (t2 & E2 & L2 & B2).
    exists (t1 ++ t2). split; [| split].
    + rewrite E2, E1, app_assoc. reflexivity.
    + rewrite length_app. cbn [List.length]. lia.
    + intros B. apply B2, B1, B.
Qed.

End QueueDiscipline.

(** X4.  The polling loop fills [xButtonQueue] in order and within its
    capacity: after any polls the queue is the queue before followed by
    the events sent, at most one per poll, and a queue that held at most
    [BUTTON_QUEUE_SIZE] events still does. *)
Theorem button_queue_grows_in_order
        (at_start : Buttons.Pins) (polls : list Buttons.Pins)
        (q : list ButtonEvent_t) :
  (List.length q <= BUTTON_QUEUE_SIZE)%nat ->
  (List.length (snd (App.vButtonTask at_start polls q))
   <= BUTTON_QUEUE_SIZE)%nat
  /\ exists sent,
      snd (App.vButtonTask at_start polls q) = q ++ sent
      /\ (List.length sent <= List.length polls)%nat.
Proof.
  intros B. rewrite vButtonTask_poll_on.
  destruct (polls_queue polls (Buttons.Buttons_Init at_start, q))
    as (t & E & L & K).
  cbn [snd] in *. split; [auto |]. exists t. auto.
Qed.

Lemma button_queue_grows_in_order_witness :
  (List.length
     (snd (App.vButtonTask Gesture.all_released
             (repeat (Trace.only BUTTON_PB1) 6
              ++ repeat Gesture.all_released 6)
             (repeat Gesture.PB2_CLICK 10)))
   <= BUTTON_QUEUE_SIZE)%nat
  /\ exists sent,
      snd (App.vButtonTask Gesture.all_released
             (repeat (Trace.only BUTTON_PB1) 6
              ++ repeat Gesture.all_released 6)
             (repeat Gesture.PB2_CLICK 10))
      = repeat Gesture.PB2_CLICK 10 ++ sent
      /\ (List.length sent
          <= List.length (repeat (Trace.only BUTTON_PB1) 6
                          ++ repeat Gesture.all_released 6))%nat.
Proof.
  apply (button_queue_grows_in_order Gesture.all_released
           (repeat (Trace.only BUTTON_PB1) 6 ++ repeat Gesture.all_released 6)
           (repeat Gesture.PB2_CLICK 10)).
  vm_compute. lia.
Defined.

Section Clearing.

Import Buttons Gesture Trace.

Lemma ClearEvents_ready (g : Statics) : ready (Buttons_ClearEvents g) = [].
Proof.
  destruct g as [[c1 l1 r1 n1 d1 k1 p1] [c2 l2 r2 n2 d2 k2 p2]
                 [c3 l3 r3 n3 d3 k3 p3] cc cl cd w2 w3].
  unfold ready, priority, due, long_press_due, combo_long_press_due.
  cbn. rewrite !andb_false_r. reflexivity.
Qed.

(** After [UpdateButtonState] on a button whose long press counts as
    reported and which has no click pending, no click is pending, and the
    long press is not due unless the tick is a second long. *)
Lemma update_after_clear (s : ButtonState_t) (raw : bool) (e : Z) :
  click_pending s = false ->
  long_press_sent s = true ->
  uint16 e < LONG_PRESS_THRESHOLD_MS ->
  click_pending (UpdateButtonState s raw e) = false
  /\ long_press_due (UpdateButtonState s raw e) = false.
Proof.
  destruct s as [c l r n d k p]. cbn [click_pending long_press_sent].
  intros -> -> He. unfold UpdateButtonState, long_press_due,
    LONG_PRESS_THRESHOLD_MS in *.
  cbn -[uint16 Z.geb].
  destruct (Bool.eqb raw c); cbn -[uint16 Z.geb].
  - destruct c; cbn -[uint16 Z.geb]; rewrite ?andb_false_r; auto.
  - destruct (uint16 (n + 1) >=? DEBOUNCE_COUNT); cbn -[uint16 Z.geb].
    + destruct raw; cbn -[uint16 Z.geb]; [| auto].
      split; [reflexivity |].
      change (0 + e) with e.
      destruct (Z.geb_spec (uint16 e) 1000) as [G | G]; [lia | reflexivity].
    + destruct c; cbn -[uint16 Z.geb]; rewrite ?andb_false_r; auto.
Qed.

(** The button states that [Buttons_Update] leaves: those of
    [UpdateButtonState], PB2 and PB3 possibly with their click cancelled. *)
Lemma update_button_states (g : Statics) (pins : Pins) (e : Z) :
  pb1_state (Buttons_Update g pins e)
  = UpdateButtonState (pb1_state g) (PB1_Read pins) e
  /\ (pb2_state (Buttons_Update g pins e)
      = UpdateButtonState (pb2_state g) (PB2_Read pins) e
      \/ pb2_state (Buttons_Update g pins e)
         = set_click_pending false
             (UpdateButtonState (pb2_state g) (PB2_Read pins) e))
  /\ (pb3_state (Buttons_Update g pins e)
      = UpdateButtonState (pb3_state g) (PB3_Read pins) e
      \/ pb3_state (Buttons_Update g pins e)
         = set_click_pending false
             (UpdateButtonState (pb3_state g) (PB3_Read pins) e)).
Proof.
  open_update g pins e.
  destruct c2, c3; cbn -[uint16 Z.geb Z.gtb Z.ltb]; split_ifs; auto.
Qed.

End Clearing.

(** X5.  [Buttons_ClearEvents] leaves nothing to send, and nothing on the
    next poll either, whatever the pins read then (the tick being shorter
    than a second): a button held when the events were cleared gives no
    long press, its release gives no click, and a combo window closing on
    that poll gives no combo click. *)
Theorem clear_events_silences_next_poll
        (g : Buttons.Statics) (pins : Buttons.Pins) (elapsed_ms : Z)
        (q : list ButtonEvent_t) :
  uint16 elapsed_ms < Buttons.LONG_PRESS_THRESHOLD_MS ->
  Gesture.ready (Buttons.Buttons_ClearEvents g) = []
  /\ Gesture.ready
       (Buttons.Buttons_Update (Buttons.Buttons_ClearEvents g) pins
                               elapsed_ms) = []
  /\ snd (Buttons.Buttons_SendPendingEvents
            (Buttons.Buttons_Update (Buttons.Buttons_ClearEvents g) pins
                                    elapsed_ms) q) = q.
Proof.
  intros He.
  assert (R : Gesture.ready
                (Buttons.Buttons_Update (Buttons.Buttons_ClearEvents g) pins
                                        elapsed_ms) = []).
  2: { split; [apply ClearEvents_ready | split; [exact R |]].
       rewrite (send_pending_events_idle _ q R). reflexivity. }
  pose proof (combo_long_press_not_due_after_update
                (Buttons.Buttons_ClearEvents g) pins elapsed_ms) as CL.
  pose proof (no_combo_click_after_long_press
                (Buttons.Buttons_ClearEvents g) pins elapsed_ms eq_refl) as CC.
  destruct (update_button_states (Buttons.Buttons_ClearEvents g) pins
              elapsed_ms) as (U1 & U2 & U3).
  destruct (update_after_clear
              (Buttons.pb1_state (Buttons.Buttons_ClearEvents g))
              (Buttons.PB1_Read pins) elapsed_ms eq_refl eq_refl He)
    as [K1 _].
  destruct (update_after_clear
              (Buttons.pb2_state (Buttons.Buttons_ClearEvents g))
              (Buttons.PB2_Read pins) elapsed_ms eq_refl eq_refl He)
    as [K2 _].
  destruct (update_after_clear
              (Buttons.pb3_state (Buttons.Buttons_ClearEvents g))
              (Buttons.PB3_Read pins) elapsed_ms eq_refl eq_refl He)
    as [K3 L3].
  revert CL CC U1 U2 U3 K1 K2 K3 L3.
  generalize (Buttons.Buttons_Update (Buttons.Buttons_ClearEvents g) pins
                elapsed_ms).
  generalize (Buttons.UpdateButtonState
                (Buttons.pb1_state (Buttons.Buttons_ClearEvents g))
                (Buttons.PB1_Read pins) elapsed_ms).
  generalize (Buttons.UpdateButtonState
                (Buttons.pb2_state (Buttons.Buttons_ClearEvents g))
                (Buttons.PB2_Read pins) elapsed_ms).
  generalize (Buttons.UpdateButtonState
                (Buttons.pb3_state (Buttons.Buttons_ClearEvents g))
                (Buttons.PB3_Read pins) elapsed_ms).
  intros u3 u2 u1 g1 CL CC U1 U2 U3 K1 K2 K3 L3.
  unfold Gesture.ready, Gesture.priority, Gesture.due. cbn [filter button event].
  rewrite CL, CC, U1, K1.
  assert (P2 : Buttons.click_pending (Buttons.pb2_state g1) = false)
    by (destruct U2 as [-> | ->]; [exact K2 | destruct u2; reflexivity]).
  assert (P3 : Buttons.click_pending (Buttons.pb3_state g1) = false)
    by (destruct U3 as [-> | ->]; [exact K3 | destruct u3; reflexivity]).
  assert (D3 : Gesture.long_press_due (Buttons.pb3_state g1) = false)
    by (destruct U3 as [-> | ->]; [exact L3 | destruct u3; exact L3]).
  rewrite P2, P3, D3. destruct g; reflexivity.
Qed.

Lemma clear_events_silences_next_poll_witness :
  Gesture.ready
    (Buttons.Buttons_Update
       (Buttons.Buttons_ClearEvents
          (Trace.one_button BUTTON_PB3 (Trace.held false 4 2000 false) 2000))
       Gesture.all_released 10) = [].
Proof.
  apply (clear_events_silences_next_poll
           (Trace.one_button BUTTON_PB3 (Trace.held false 4 2000 false) 2000)
           Gesture.all_released 10 []).
  reflexivity.
Defined.

(** * More on debouncing and the combo window *)

(** X6.  [Buttons_Update] raises the combo click on exactly one kind of
    poll: both buttons debounced-released after the update, both seen
    pressed in the window, the window between 0 and 1000 ms long and no
    combo long press marked.  On any other poll the flag stays as it was;
    the update never clears it. *)
Theorem combo_click_raised_exactly
        (g : Buttons.Statics) (pins : Buttons.Pins) (elapsed_ms : Z) :
  let g' := Buttons.Buttons_Update g pins elapsed_ms in
  Buttons.pb2_pb3_combo_click_pending g'
  = Buttons.pb2_pb3_combo_click_pending g
    || (negb (Buttons.current_state (Buttons.pb2_state g'))
        && negb (Buttons.current_state (Buttons.pb3_state g'))
        && Buttons.pb2_was_pressed_in_combo g
        && Buttons.pb3_was_pressed_in_combo g
        && (Buttons.pb2_pb3_combo_duration g >? 0)
        && (Buttons.pb2_pb3_combo_duration g
            <? Buttons.LONG_PRESS_THRESHOLD_MS)
        && negb (Buttons.pb2_pb3_combo_long_press_sent g)).
Proof.
  cbv zeta. destruct (update_levels g pins elapsed_ms) as [-> ->].
  open_update g pins elapsed_ms.
  destruct c2, c3; cbn -[uint16 Z.geb Z.gtb Z.ltb];
    rewrite ?orb_false_r; try reflexivity.
  - destruct ((uint16 (cd + elapsed_ms) >=? 1000) && negb cl);
      cbn -[uint16 Z.geb Z.gtb Z.ltb]; reflexivity.
  - destruct w2, w3; cbn -[uint16 Z.geb Z.gtb Z.ltb];
      rewrite ?orb_false_r; try reflexivity.
    destruct ((cd >? 0) && (cd <? 1000) && negb cl) eqn:E;
      cbn -[uint16 Z.geb Z.gtb Z.ltb].
    + rewrite orb_true_r. reflexivity.
    + rewrite orb_false_r. reflexivity.
Qed.

Section Commit.

Import Buttons Gesture.

(** The reading that commits: the counter at [DEBOUNCE_COUNT - 1] and one
    more disagreeing reading. *)
Lemma update_commits (s : ButtonState_t) (e : Z) :
  debounce_counter s = DEBOUNCE_COUNT - 1 ->
  UpdateButtonState s (negb (current_state s)) e
  = if current_state s
    then mkButtonState false true false 0 0
           (click_pending s || negb (long_press_sent s)) (long_press_sent s)
    else mkButtonState true false true 0 (uint16 e) (click_pending s) false.
Proof.
  destruct s as [cur lst raw cnt dur clk lps].
  unfold DEBOUNCE_COUNT. cbn. intros ->.
  unfold UpdateButtonState. cbn -[uint16].
  destruct cur; cbn -[uint16].
  - destruct lps, clk; reflexivity.
  - reflexivity.
Qed.

(** A disagreeing reading that only counts keeps the flags. *)
Lemma update_counts_keeps (s : ButtonState_t) (e : Z) :
  0 <= debounce_counter s < DEBOUNCE_COUNT - 1 ->
  click_pending (UpdateButtonState s (negb (current_state s)) e)
  = click_pending s
  /\ long_press_sent (UpdateButtonState s (negb (current_state s)) e)
     = long_press_sent s.
Proof.
  destruct s as [cur lst raw cnt dur clk lps].
  unfold DEBOUNCE_COUNT. cbn. intros H.
  unfold UpdateButtonState. cbn.
  assert (E : Bool.eqb (negb cur) cur = false) by (destruct cur; reflexivity).
  rewrite E. cbn. rewrite uint16_small by lia.
  unfold DEBOUNCE_COUNT.
  destruct (Z.geb_spec (cnt + 1) 5) as [G | G]; [lia |].
  destruct cur; cbn; auto.
Qed.

Lemma polls_flip_keeps s e (b : bool) (k : nat) :
  current_state s = b ->
  0 <= debounce_counter s ->
  debounce_counter s + Z.of_nat k < DEBOUNCE_COUNT ->
  click_pending (polls s (repeat (negb b) k) e) = click_pending s
  /\ long_press_sent (polls s (repeat (negb b) k) e) = long_press_sent s.
Proof.
  revert s. induction k as [| k IH]; intros s Hb H0 H.
  - cbn. auto.
  - cbn [repeat polls fold_left]. subst b.
    destruct (update_disagree s e) as [Hc Hd].
    { unfold DEBOUNCE_COUNT in *. lia. }
    destruct (update_counts_keeps s e) as [Kc Kl].
    { unfold DEBOUNCE_COUNT in *. lia. }
    destruct (IH (UpdateButtonState s (negb (current_state s)) e) Hc)
      as [Ic Il]; [lia | lia |].
    unfold polls in Ic, Il. rewrite Ic, Il, Kc, Kl. auto.
Qed.

End Commit.

(** X7.  Five readings of the other level in a row, from a counter at 0,
    commit the change on the fifth: the debounced state flips, the old
    level is kept in [last_state] and the counter is back at 0.  A
    committed press starts [press_duration] at the tick's length and
    clears [long_press_sent]; a committed release zeroes
    [press_duration] and leaves a click pending unless the long press was
    reported. *)
Theorem debounce_commits_on_fifth
        (s : Buttons.ButtonState_t) (elapsed_ms : Z) :
  Buttons.debounce_counter s = 0 ->
  let s4 := Gesture.polls s (repeat (negb (Buttons.current_state s)) 4)
                          elapsed_ms in
  let s5 := Gesture.polls s (repeat (negb (Buttons.current_state s)) 5)
                          elapsed_ms in
  Buttons.current_state s4 = Buttons.current_state s
  /\ Buttons.current_state s5 = negb (Buttons.current_state s)
  /\ Buttons.last_state s5 = Buttons.current_state s
  /\ Buttons.debounce_counter s5 = 0
  /\ (Buttons.current_state s = false ->
      Buttons.press_duration s5 = uint16 elapsed_ms
      /\ Buttons.long_press_sent s5 = false)
  /\ (Buttons.current_state s = true ->
      Buttons.press_duration s5 = 0
      /\ Buttons.click_pending s5
         = Buttons.click_pending s || negb (Buttons.long_press_sent s)).
Proof.
  intros H0. cbv zeta.
  destruct (polls_flip s elapsed_ms (Buttons.current_state s) 4 eq_refl)
    as [C4 N4]; [lia | unfold Buttons.DEBOUNCE_COUNT; lia |].
  destruct (polls_flip_keeps s elapsed_ms (Buttons.current_state s) 4
              eq_refl) as [K4 L4];
    [lia | unfold Buttons.DEBOUNCE_COUNT; lia |].
  split; [exact C4 |].
  change 5%nat with (4 + 1)%nat. rewrite repeat_app, polls_app.
  revert C4 N4 K4 L4.
  generalize (Gesture.polls s (repeat (negb (Buttons.current_state s)) 4)
                            elapsed_ms).
  intros s4 C4 N4 K4 L4.
  change (Gesture.polls s4 (repeat (negb (Buttons.current_state s)) 1)
                        elapsed_ms)
    with (Buttons.UpdateButtonState s4 (negb (Buttons.current_state s))
                                    elapsed_ms).
  rewrite <- C4.
  rewrite update_commits by (rewrite N4, H0; reflexivity).
  rewrite K4, L4.
  destruct (Buttons.current_state s4); cbn;
    repeat split; auto; discriminate.
Qed.

Lemma debounce_commits_on_fifth_witness :
  Buttons.current_state
    (Gesture.polls (Buttons.init_button false) (repeat true 5) 10) = true
  /\ Buttons.press_duration
       (Gesture.polls (Buttons.init_button false) (repeat true 5) 10) = 10.
Proof.
  destruct (debounce_commits_on_fifth (Buttons.init_button false) 10
              eq_refl) as (_ & H5 & _ & _ & Hp & _).
  split; [exact H5 | apply Hp; reflexivity].
Defined.

(** * The PWM output over time *)

Section PwmOutput.

Import PWM Trace.

Lemma uint8_small x : 0 <= x < 256 -> uint8 x = x.
Proof. intros H. unfold uint8. apply Z.mod_small. lia. Qed.

(** An interrupt below the top of the ramp. *)
Lemma interrupt_step d c en ph ton ie led :
  0 <= c < PWM_RESOLUTION - 1 ->
  T2Interrupt (mkStatics d c en ph ton ie led)
  = mkStatics d (c + 1) en ph ton ie (en && (c + 1 <? d)).
Proof.
  unfold PWM_RESOLUTION. intros H. unfold T2Interrupt. cbn.
  rewrite uint8_small by lia. unfold PWM_RESOLUTION.
  destruct (Z.geb_spec (c + 1) 100) as [G | G]; [lia |].
  cbn. destruct (en && (c + 1 <? d)); reflexivity.
Qed.

(** An interrupt at the top of the ramp, or above it. *)
Lemma interrupt_wrap d c en ph ton ie led :
  PWM_RESOLUTION - 1 <= c < 256 ->
  T2Interrupt (mkStatics d c en ph ton ie led)
  = mkStatics d 0 en ph ton ie (en && (0 <? d)).
Proof.
  unfold PWM_RESOLUTION. intros H.
  destruct (Z.eq_dec c 255) as [-> | N].
  - unfold T2Interrupt. cbn. destruct (en && (0 <? d)); reflexivity.
  - unfold T2Interrupt. cbn. rewrite uint8_small by lia.
    unfold PWM_RESOLUTION.
    destruct (Z.geb_spec (c + 1) 100) as [G | G]; [| lia].
    cbn. destruct (en && (0 <? d)); reflexivity.
Qed.

(** The interrupts up to the top of the ramp light LED2 while the counter
    is below the duty cycle. *)
Lemma lit_ramp d ph ton ie (n : nat) :
  forall c led,
    0 <= c -> c + Z.of_nat n <= PWM_RESOLUTION - 1 ->
    lit_ticks n (mkStatics d c true ph ton ie led)
    = Z.to_nat (Z.min (c + Z.of_nat n) (d - 1) - c).
Proof.
  unfold PWM_RESOLUTION.
  induction n as [| n IH]; intros c led H0 H.
  - cbn [lit_ticks]. lia.
  - cbn [lit_ticks]. rewrite interrupt_step by (unfold PWM_RESOLUTION; lia).
    cbn [LED2 andb]. rewrite IH by lia.
    destruct (Z.ltb_spec (c + 1) d); lia.
Qed.

(** The same through one wrap of the counter. *)
Lemma lit_period d ph ton ie (n : nat) :
  forall c led,
    0 <= c < 256 -> PWM_RESOLUTION - 1 < c + Z.of_nat n ->
    (0 < n <= 100)%nat ->
    lit_ticks n (mkStatics d c true ph ton ie led)
    = (Z.to_nat (Z.min (PWM_RESOLUTION - 1) (d - 1) - c)
       + (if (0 <? d)%Z then 1 else 0)
       + Z.to_nat (Z.min (Z.of_nat n - 1
                          - Z.max 0 (PWM_RESOLUTION - 1 - c)) (d - 1)))%nat.
Proof.
  unfold PWM_RESOLUTION.
  induction n as [| n IH]; intros c led H0 H Hn.
  - lia.
  - cbn [lit_ticks].
    destruct (Z_lt_le_dec c 99) as [L | L].
    + rewrite interrupt_step by (unfold PWM_RESOLUTION; lia).
      cbn [LED2 andb]. rewrite IH by lia.
      destruct (Z.ltb_spec (c + 1) d); destruct (Z.ltb_spec 0 d); lia.
    + rewrite interrupt_wrap by (unfold PWM_RESOLUTION; lia).
      cbn [LED2 andb].
      rewrite lit_ramp by (unfold PWM_RESOLUTION; lia).
      destruct (Z.ltb_spec 0 d); lia.
Qed.

End PwmOutput.

(** X8.  With the output enabled and a duty cycle of [d] percent, LED2 is
    on after exactly [d] of any 100 Timer2 interrupts in a row, wherever
    the counter stands at the first. *)
Theorem duty_cycle_is_lit_share (p : PWM.Statics) :
  PWM.pwm_output_enabled p = true ->
  0 <= PWM.pwm_duty_cycle p <= 100 ->
  0 <= PWM.pwm_counter p < 256 ->
  Trace.lit_ticks 100 p = Z.to_nat (PWM.pwm_duty_cycle p).
Proof.
  destruct p as [d c en ph ton ie led].
  cbn [PWM.pwm_output_enabled PWM.pwm_duty_cycle PWM.pwm_counter].
  intros -> Hd Hc.
  rewrite lit_period by (unfold PWM.PWM_RESOLUTION; lia).
  unfold PWM.PWM_RESOLUTION.
  destruct (Z.ltb_spec 0 d); lia.
Qed.

Lemma duty_cycle_is_lit_share_witness :
  Trace.lit_ticks 100 (PWM.PWM_SetDutyCycle 37 (PWM.PWM_Start PWM.at_reset))
  = 37%nat.
Proof.
  apply (duty_cycle_is_lit_share
           (PWM.PWM_SetDutyCycle 37 (PWM.PWM_Start PWM.at_reset)));
    [reflexivity | cbn; lia | cbn; lia].
Defined.

Section PwmDisabled.

Import PWM.

Lemma call_keeps_dark (c : Call) (p p' : Statics) :
  c <> CallInit -> c <> CallSetOutputEnabled true ->
  pwm_output_enabled p = false -> LED2 p = false ->
  call c p = Some p' ->
  pwm_output_enabled p' = false /\ LED2 p' = false.
Proof.
  intros N1 N2 He Hl.
  destruct p as [d cn en ph ton ie led]. cbn in He, Hl. subst en led.
  destruct c as [| | | dp | e | e t | |]; cbn [call].
  - congruence.
  - intros [= <-]. split; reflexivity.
  - intros [= <-]. split; reflexivity.
  - intros [= <-]. split; reflexivity.
  - destruct e; [congruence |]. intros [= <-]. split; reflexivity.
  - unfold PWM_UpdatePulse. destruct (uint16 t =? 0); [discriminate |].
    intros [= <-]. split; reflexivity.
  - intros [= <-]. split; reflexivity.
  - intros [= <-]. unfold T2Interrupt. cbn.
    destruct (uint8 (cn + 1) >=? PWM_RESOLUTION); split; reflexivity.
Qed.

End PwmDisabled.

(** X9.  [PWM_SetOutputEnabled(false)] turns LED2 off at once, and LED2
    stays off through any later interrupts and calls of the module, until
    [PWM_Init] or [PWM_SetOutputEnabled(true)] is called. *)
Theorem disabled_output_stays_dark (cs : list PWM.Call) (p p' : PWM.Statics) :
  ~ In PWM.CallInit cs ->
  ~ In (PWM.CallSetOutputEnabled true) cs ->
  PWM.calls cs (PWM.PWM_SetOutputEnabled false p) = Some p' ->
  PWM.PWM_IsOutputEnabled p' = false /\ PWM.LED2 p' = false.
Proof.
  assert (G : forall cs q,
             ~ In PWM.CallInit cs ->
             ~ In (PWM.CallSetOutputEnabled true) cs ->
             PWM.pwm_output_enabled q = false -> PWM.LED2 q = false ->
             PWM.calls cs q = Some p' ->
             PWM.pwm_output_enabled p' = false /\ PWM.LED2 p' = false).
  { clear cs p. induction cs as [| c cs IH]; intros q N1 N2 He Hl.
    - cbn. intros [= <-]. auto.
    - cbn [PWM.calls]. destruct (PWM.call c q) as [q' |] eqn:E;
        [| discriminate].
      destruct (call_keeps_dark c q q') as [He' Hl']; auto.
      + intros ->. apply N1. left. reflexivity.
      + intros ->. apply N2. left. reflexivity.
      + apply IH; auto.
        * intros H. apply N1. right. exact H.
        * intros H. apply N2. right. exact H. }
  intros N1 N2. apply G; auto; destruct p; reflexivity.
Qed.

Lemma disabled_output_stays_dark_witness :
  PWM.LED2 (PWM.T2Interrupt
              (PWM.PWM_SetDutyCycle 80
                 (PWM.PWM_SetOutputEnabled false
                    (PWM.PWM_Start PWM.at_reset)))) = false.
Proof.
  refine (proj2 (disabled_output_stays_dark
                   [PWM.CallSetDutyCycle 80; PWM.CallT2Interrupt]
                   (PWM.PWM_Start PWM.at_reset) _ _ _ eq_refl)).
  - simpl. intros [H | [H | H]]; [discriminate H | discriminate H | exact H].
  - simpl. intros [H | [H | H]]; [discriminate H | discriminate H | exact H].
Defined.

(** * The breathing pulse *)

Section Pulse.

Import PWM.

Lemma uint16_add_l a b : uint16 (uint16 a + b) = uint16 (a + b).
Proof. unfold uint16. apply Zplus_mod_idemp_l. Qed.

Lemma uint16_add_r a b : uint16 (a + uint16 b) = uint16 (a + b).
Proof. unfold uint16. apply Zplus_mod_idemp_r. Qed.

(** One update, for arguments in the range of their type. *)
Lemma UpdatePulse_run (e t : Z) (p : Statics) :
  0 <= e < 65536 -> 0 < t < 65536 ->
  PWM_UpdatePulse e t p
  = Some (mkStatics
            (nth (Z.to_nat
                    (Z.shiftr (uint16 (pulse_phase p + e * 65536 / t)) 12))
                 sine_table 0)
            (pwm_counter p) (pwm_output_enabled p)
            (uint16 (pulse_phase p + e * 65536 / t))
            (T2CON_TON p) (IEC0_T2IE p) (LED2 p)).
Proof.
  intros He Ht. unfold PWM_UpdatePulse.
  rewrite (uint16_small e), (uint16_small t) by lia.
  destruct (Z.eqb_spec t 0) as [-> | _]; [lia |].
  change (2 ^ 32) with 4294967296.
  rewrite (Z.mod_small (e * 65536) 4294967296) by lia.
  rewrite uint16_add_r.
  destruct p as [d c en ph ton ie led].
  unfold set_pwm_duty_cycle, set_pulse_phase.
  cbn [pwm_duty_cycle pwm_counter pwm_output_enabled pulse_phase
       T2CON_TON IEC0_T2IE LED2].
  set (ph' := uint16 (ph + e * 65536 / t)).
  assert (R : 0 <= ph' < 65536) by apply uint16_range.
  assert (S : 0 <= Z.shiftr ph' 12 < 16).
  { rewrite Z.shiftr_div_pow2 by lia. change (2 ^ 12) with 4096.
    split; [apply Z.div_pos; lia | apply Z.div_lt_upper_bound; lia]. }
  rewrite (uint8_small (Z.shiftr ph' 12)) by lia. reflexivity.
Qed.

(** [k] updates in a row. *)
Lemma updates_run (e t : Z) (k : nat) (p : Statics) :
  0 <= e < 65536 -> 0 < t < 65536 -> (0 < k)%nat ->
  calls (repeat (CallUpdatePulse e t) k) p
  = Some (mkStatics
            (nth (Z.to_nat
                    (Z.shiftr
                       (uint16 (pulse_phase p
                                + Z.of_nat k * (e * 65536 / t))) 12))
                 sine_table 0)
            (pwm_counter p) (pwm_output_enabled p)
            (uint16 (pulse_phase p + Z.of_nat k * (e * 65536 / t)))
            (T2CON_TON p) (IEC0_T2IE p) (LED2 p)).
Proof.
  intros He Ht Hk. revert p.
  induction k as [| k IH]; [lia |]. intros p.
  cbn [repeat calls call]. rewrite UpdatePulse_run by assumption.
  destruct k as [| k].
  - cbn [repeat calls]. do 4 f_equal;
      rewrite Z.mul_1_l || (f_equal; lia); reflexivity.
  - rewrite IH by lia.
    cbn [pulse_phase pwm_counter pwm_output_enabled
         T2CON_TON IEC0_T2IE LED2].
    rewrite uint16_add_l.
    replace (pulse_phase p + e * 65536 / t
             + Z.of_nat (S k) * (e * 65536 / t))
      with (pulse_phase p + Z.of_nat (S (S k)) * (e * 65536 / t))
      by lia.
    reflexivity.
Qed.

(** The updates of the waiting loop are calls that succeed. *)
Lemma iter_update_pulse (k : nat) (p : Statics) :
  calls (repeat (CallUpdatePulse 20 Waiting.PULSE_PERIOD_MS) k) p
  = Some (Nat.iter k Waiting.update_pulse p).
Proof.
  revert p. induction k as [| k IH]; intros p; [reflexivity |].
  cbn [repeat calls call]. rewrite Nat.iter_succ_r.
  unfold Waiting.update_pulse at 2.
  rewrite UpdatePulse_run by (unfold Waiting.PULSE_PERIOD_MS; lia).
  rewrite <- IH. reflexivity.
Qed.

Lemma Some_eq {A : Type} (a b : A) : Some a = Some b -> a = b.
Proof. intros [= H]. exact H. Qed.

(** The pulse after [k] turns of the waiting loop. *)
Lemma waiting_pulse (k : nat) (p : Statics) :
  (0 < k)%nat ->
  Nat.iter k Waiting.update_pulse p
  = mkStatics
      (nth (Z.to_nat
              (Z.shiftr (uint16 (pulse_phase p + Z.of_nat k * 655)) 12))
           sine_table 0)
      (pwm_counter p) (pwm_output_enabled p)
      (uint16 (pulse_phase p + Z.of_nat k * 655))
      (T2CON_TON p) (IEC0_T2IE p) (LED2 p).
Proof.
  intros Hk. apply Some_eq. rewrite <- iter_update_pulse.
  apply (updates_run 20 Waiting.PULSE_PERIOD_MS k p);
    unfold Waiting.PULSE_PERIOD_MS; lia.
Qed.

End Pulse.

(** X10.  [k] calls of [PWM_UpdatePulse] with the same arguments, the
    period not 0, all succeed and advance the 16-bit phase by [k] times
    the truncated increment [elapsed_ms * 65536 / period_ms], wrapping at
    65536; the duty cycle left by the last call is the entry of the sine
    table at the top four bits of the phase, and nothing else changes. *)
Theorem pulse_phase_after_updates (elapsed_ms period_ms : Z) (k : nat)
        (p : PWM.Statics) :
  0 <= elapsed_ms < 65536 -> 0 < period_ms < 65536 -> (0 < k)%nat ->
  let phase := uint16 (PWM.pulse_phase p
                       + Z.of_nat k * (elapsed_ms * 65536 / period_ms)) in
  PWM.calls (repeat (PWM.CallUpdatePulse elapsed_ms period_ms) k) p
  = Some (PWM.mkStatics
            (nth (Z.to_nat (Z.shiftr phase 12)) PWM.sine_table 0)
            (PWM.pwm_counter p) (PWM.pwm_output_enabled p) phase
            (PWM.T2CON_TON p) (PWM.IEC0_T2IE p) (PWM.LED2 p)).
Proof.
  intros He Ht Hk. cbv zeta. apply updates_run; assumption.
Qed.

Lemma pulse_phase_after_updates_witness :
  PWM.calls (repeat (PWM.CallUpdatePulse 20 2000) 100)
            (PWM.PWM_ResetPulse PWM.at_reset)
  = Some (PWM.mkStatics 5 0 true 65500 false false false).
Proof.
  apply (pulse_phase_after_updates 20 2000 100
           (PWM.PWM_ResetPulse PWM.at_reset)); lia.
Defined.

(** * The ADC conversion *)

(** X11.  On a 10-bit reading [ADC_ToPercent] is the reading times 100
    over 1023, rounded down: within 0..100, never decreasing in the
    reading, 0 at 0 and 100 at full scale only. *)
Theorem adc_percent_of_10_bit_reading (a b : Z) :
  0 <= a <= b -> b <= ADC.ADC_MAX_VALUE ->
  ADC.ADC_ToPercent a = a * 100 / 1023
  /\ 0 <= ADC.ADC_ToPercent a <= ADC.ADC_ToPercent b
  /\ ADC.ADC_ToPercent b <= 100
  /\ (ADC.ADC_ToPercent a = 100 <-> a = ADC.ADC_MAX_VALUE)
  /\ (ADC.ADC_ToPercent a = 0 <-> a <= 10).
Proof.
  unfold ADC.ADC_MAX_VALUE. intros Ha Hb.
  assert (E : forall x, 0 <= x <= 1023 ->
                        ADC.ADC_ToPercent x = x * 100 / 1023
                        /\ 0 <= x * 100 / 1023 <= 100).
  { intros x Hx. unfold ADC.ADC_ToPercent, ADC.ADC_MAX_VALUE.
    rewrite (uint16_small x) by lia.
    change (2 ^ 32) with 4294967296.
    rewrite (Z.mod_small (x * 100) 4294967296) by lia.
    assert (0 <= x * 100 / 1023 <= 100).
    { split; [apply Z.div_pos; lia |].
      apply Z.div_le_upper_bound; lia. }
    rewrite (uint8_small (x * 100 / 1023)) by lia. auto. }
  destruct (E a) as [Ea Ra]; [lia |].
  destruct (E b) as [Eb Rb]; [lia |].
  rewrite Ea, Eb.
  split; [reflexivity |]. split; [| split; [| split]].
  - split; [lia |]. apply Z.div_le_mono; lia.
  - lia.
  - pose proof (Z.div_mod (a * 100) 1023).
    pose proof (Z.mod_pos_bound (a * 100) 1023). lia.
  - pose proof (Z.div_mod (a * 100) 1023).
    pose proof (Z.mod_pos_bound (a * 100) 1023). lia.
Qed.

Lemma adc_percent_of_10_bit_reading_witness :
  ADC.ADC_ToPercent 511 = 49 /\ ADC.ADC_ToPercent 512 = 50.
Proof.
  destruct (adc_percent_of_10_bit_reading 511 512) as (Ea & _);
    [lia | unfold ADC.ADC_MAX_VALUE; lia |].
  destruct (adc_percent_of_10_bit_reading 512 512) as (Eb & _);
    [lia | unfold ADC.ADC_MAX_VALUE; lia |].
  split; [exact Ea | exact Eb].
Defined.

(** * The input buffer *)

Section InputBuffer.

Import App Trace.

Lemma length_store (i : nat) (c : ascii) (a : list ascii) :
  (i < List.length a)%nat -> List.length (store i c a) = List.length a.
Proof.
  intros H. unfold store.
  rewrite length_app, length_firstn. cbn [List.length].
  rewrite length_skipn. lia.
Qed.

Lemma nth_store (i j : nat) (c d : ascii) (a : list ascii) :
  (i < List.length a)%nat ->
  nth j (store i c a) d = if (j =? i)%nat then c else nth j a d.
Proof.
  intros H. unfold store.
  assert (L : List.length (firstn i a) = i)
    by (rewrite length_firstn; lia).
  destruct (Nat.eqb_spec j i) as [-> | N].
  - rewrite app_nth2 by lia. rewrite L, Nat.sub_diag. reflexivity.
  - destruct (Nat.lt_ge_cases j i) as [Lt | Ge].
    + rewrite app_nth1 by lia.
      rewrite <- (firstn_skipn i a) at 2. rewrite app_nth1 by lia.
      reflexivity.
    + rewrite app_nth2 by lia. rewrite L.
      destruct (j - i)%nat as [| k] eqn:E; [lia |].
      cbn [nth]. rewrite nth_skipn. f_equal. lia.
Qed.

Lemma strchr_bound (s : list ascii) (c : ascii) (n : nat) :
  strchr s c = Some n -> (n < List.length s)%nat.
Proof.
  revert n. induction s as [| x s IH]; intros n; cbn [strchr].
  - discriminate.
  - destruct (x =? c)%char.
    + intros [= <-]. cbn. lia.
    + destruct (x =? NUL)%char; [discriminate |].
      destruct (strchr s c) as [m |]; [| discriminate].
      cbn. intros [= <-]. specialize (IH m eq_refl). lia.
Qed.

Lemma fst_run_then {A B : Type} (c : Task A) (b : B) (w : World) :
  fst (runState (bind c (fun _ => ret b)) w) = b.
Proof. rewrite run_bind, run_ret. reflexivity. Qed.

(** The buffer after a store of [c] at [i], below its size, with [NUL]
    from [k] on. *)
Lemma store_ok (buf : list ascii) (i k k' : nat) (c : ascii) (v : bool) :
  buffer_ok (mkInputLocals buf k v) ->
  (i < sizeof_input_buffer)%nat -> (k' < sizeof_input_buffer)%nat ->
  (forall j, (k' <= j)%nat -> j <> i -> (k <= j)%nat) ->
  ((k' <= i)%nat -> c = NUL) ->
  forall v', buffer_ok (mkInputLocals (store i c buf) k' v').
Proof.
  unfold buffer_ok. cbn [input_buffer input_index].
  intros (L & I & Z) Hi Hk Hj Hc v'.
  split; [rewrite length_store; lia |]. split; [exact Hk |].
  intros j J. rewrite nth_store by lia.
  destruct (Nat.eqb_spec j i) as [-> | N]; [auto |].
  apply Z, Hj; assumption.
Qed.

Lemma on_uart_cmd_ok (cmd : UartCmd_t) (l : InputLocals) (w : World) :
  buffer_ok l -> buffer_ok (fst (runState (on_uart_cmd cmd l) w)).
Proof.
  intros H. destruct l as [buf k v].
  pose proof H as (L & I & Z). cbn [input_buffer input_index] in L, I, Z.
  unfold sizeof_input_buffer in *.
  unfold on_uart_cmd. cbn [input_buffer input_index got_valid_time].
  cbv zeta.
  destruct (type cmd); try exact H.
  - destruct (is_digit (character cmd) || (character cmd =? ":")%char);
      [| exact H].
    destruct (Nat.ltb_spec k (sizeof_input_buffer - 1)) as [K | K];
      [| exact H].
    unfold sizeof_input_buffer in K.
    rewrite fst_run_then.
    apply (store_ok _ (S k) (S k) (S k) NUL v);
      unfold sizeof_input_buffer; try lia; auto.
    apply (store_ok buf k k (S k) (character cmd) v);
      unfold sizeof_input_buffer; try lia; exact H.
  - destruct (Nat.ltb_spec 0 k) as [K | K]; [| exact H].
    destruct (strchr buf ":") as [colon_pos |] eqn:E.
    + pose proof (strchr_bound _ _ _ E) as B.
      set (buf' := store colon_pos NUL buf).
      assert (O : forall v', buffer_ok (mkInputLocals buf' k v')).
      { apply (store_ok buf colon_pos k k NUL v);
          unfold sizeof_input_buffer; try lia; auto. }
      destruct ((_ <? 60) && _).
      * rewrite !run_bind, run_ret. cbn [fst]. apply O.
      * rewrite fst_run_then. apply O.
    + rewrite fst_run_then. exact H.
  - destruct (Nat.ltb_spec 0 k) as [K | K]; [| exact H].
    rewrite fst_run_then.
    apply (store_ok buf (pred k) k (pred k) NUL v);
      unfold sizeof_input_buffer; try lia; auto.
Qed.

End InputBuffer.

(** X12.  Whatever is received and whenever the mutexes are taken, the
    input loop keeps its buffer well formed: 16 characters, the index at
    most 15 and [NUL] from the index on.  No store of the loop falls
    outside the buffer, and the string in it is always terminated. *)
Theorem input_buffer_stays_well_formed (cmds : list UartCmd_t)
        (w : App.World) :
  Trace.buffer_ok (fst (runState (App.input_loop cmds App.input_reset) w)).
Proof.
  assert (G : forall l, Trace.buffer_ok l ->
                        Trace.buffer_ok
                          (fst (runState (App.input_loop cmds l) w))).
  { revert w. induction cmds as [| c cmds IH]; intros w l H.
    - cbn [App.input_loop]. destruct (App.got_valid_time l); exact H.
    - cbn [App.input_loop]. destruct (App.got_valid_time l); [exact H |].
      rewrite run_bind. apply IH, on_uart_cmd_ok, H. }
  apply G. unfold Trace.buffer_ok. cbn. split; [reflexivity |].
  split; [unfold App.sizeof_input_buffer; lia |].
  intros j _. do 16 (destruct j as [| j]; [reflexivity |]).
  destruct j; reflexivity.
Qed.

(** * What is typed and what the buffer holds *)

Section Typing.

Import App Trace.

Lemma accepted_is_char (c : ascii) :
  accepted c = true -> U2RX_classify c = mkUartCmd UART_CMD_CHAR c.
Proof.
  destruct c as [[] [] [] [] [] [] [] []]; intros H;
    try discriminate H; reflexivity.
Qed.

Lemma store_app (pre rest : list ascii) (c x : ascii) :
  store (List.length pre) c (pre ++ x :: rest) = pre ++ c :: rest.
Proof.
  unfold store. induction pre as [| a pre IH]; [reflexivity |].
  cbn [List.length app firstn skipn] in *. f_equal. exact IH.
Qed.

Lemma run_XmitUART2 (c : ascii) (w : World) :
  runState (XmitUART2 c) w
  = (tt, set_terminal (terminal w ++ [String c EmptyString]) w).
Proof. reflexivity. Qed.

(** The buffer that holds the characters [pre] and [NUL] after them. *)
Lemma char_kept (c : ascii) (pre : list ascii) (v : bool) (w : World) :
  accepted c = true -> (List.length pre < 15)%nat ->
  runState (on_uart_cmd (U2RX_classify c)
              (mkInputLocals (pre ++ repeat NUL (16 - List.length pre))
                             (List.length pre) v)) w
  = (mkInputLocals
       ((pre ++ [c]) ++ repeat NUL (16 - List.length (pre ++ [c])))
       (List.length (pre ++ [c])) v,
     set_terminal (terminal w ++ [String c EmptyString]) w).
Proof.
  intros A L. rewrite (accepted_is_char c A).
  unfold on_uart_cmd.
  cbn [type character input_buffer input_index got_valid_time].
  unfold accepted in A. rewrite A.
  destruct (Nat.ltb_spec (List.length pre) (sizeof_input_buffer - 1))
    as [_ | K]; [| unfold sizeof_input_buffer in K; lia].
  cbv zeta. rewrite run_bind, run_XmitUART2, run_ret. cbn [fst snd].
  f_equal. rewrite length_app. cbn [List.length].
  replace (16 - List.length pre)%nat
    with (S (S (14 - List.length pre))) by lia.
  replace (16 - (List.length pre + 1))%nat
    with (S (14 - List.length pre)) by lia.
  cbn [repeat]. rewrite store_app.
  replace (S (List.length pre)) with (List.length (pre ++ [c]))
    by (rewrite length_app; cbn; lia).
  replace (pre ++ c :: NUL :: repeat NUL (14 - List.length pre))
    with ((pre ++ [c]) ++ NUL :: repeat NUL (14 - List.length pre))
    by (rewrite <- app_assoc; reflexivity).
  rewrite store_app. rewrite length_app. cbn [List.length].
  replace (List.length pre + 1)%nat with (S (List.length pre)) by lia.
  reflexivity.
Qed.

Lemma char_dropped (c : ascii) (l : InputLocals) (w : World) :
  type (U2RX_classify c) = UART_CMD_CHAR ->
  accepted c = false \/ (15 <= input_index l)%nat ->
  runState (on_uart_cmd (U2RX_classify c) l) w = (l, w).
Proof.
  intros T H. unfold on_uart_cmd. rewrite T.
  assert (C : character (U2RX_classify c) = c).
  { unfold U2RX_classify.
    destruct ((c =? CR)%char || (c =? LF)%char); [reflexivity |].
    destruct ((c =? BS)%char || (c =? DEL)%char); reflexivity. }
  rewrite C. fold (accepted c).
  destruct (accepted c); [| reflexivity].
  destruct H as [H | H]; [discriminate H |].
  destruct (Nat.ltb_spec (input_index l) (sizeof_input_buffer - 1))
    as [K | _]; [unfold sizeof_input_buffer in K; lia | reflexivity].
Qed.

Lemma set_terminal_same (w : World) : set_terminal (terminal w) w = w.
Proof. destruct w; reflexivity. Qed.

Lemma set_terminal_twice a b (w : World) :
  set_terminal a (set_terminal b w) = set_terminal a w.
Proof. destruct w; reflexivity. Qed.

Lemma typed_onto (received pre : list ascii) (w : World) :
  Forall (fun c => type (U2RX_classify c) = UART_CMD_CHAR) received ->
  (List.length pre <= 15)%nat ->
  let added := firstn (15 - List.length pre) (filter accepted received) in
  runState (input_loop (map U2RX_classify received)
              (mkInputLocals (pre ++ repeat NUL (16 - List.length pre))
                             (List.length pre) false)) w
  = (mkInputLocals
       ((pre ++ added)
          ++ repeat NUL (16 - List.length (pre ++ added)))
       (List.length (pre ++ added)) false,
     set_terminal
       (terminal w ++ map (fun c => String c EmptyString) added) w).
Proof.
  cbv zeta. revert pre w.
  induction received as [| c cs IH]; intros pre w F L.
  - cbn [filter firstn map input_loop got_valid_time].
    rewrite firstn_nil, !app_nil_r. cbn [map].
    rewrite set_terminal_same. reflexivity.
  - inversion F as [| c' cs' T F']; subst c' cs'.
    cbn [map input_loop got_valid_time]. rewrite run_bind.
    cbn [filter].
    destruct (accepted c) eqn:A.
    + destruct (Nat.lt_ge_cases (List.length pre) 15) as [Lt | Ge].
      * rewrite char_kept by assumption. cbn [fst snd].
        rewrite IH; [| exact F' | rewrite length_app; cbn; lia].
        rewrite set_terminal_twice. cbn [terminal].
        destruct w as [st cs0 q p l1 t d cn]. cbn [terminal set_terminal].
        rewrite length_app. cbn [List.length].
        replace (15 - List.length pre)%nat
          with (S (15 - (List.length pre + 1))) by lia.
        cbn [firstn map].
        rewrite <- !app_assoc. cbn [app]. reflexivity.
      * rewrite char_dropped; [| exact T | right; cbn; lia].
        cbn [fst snd]. rewrite IH by assumption.
        replace (15 - List.length pre)%nat with 0%nat by lia.
        reflexivity.
    + rewrite char_dropped; [| exact T | left; exact A].
      cbn [fst snd]. apply IH; assumption.
Qed.

End Typing.

(** X13.  Of any text received without CR, LF, BS or DEL, the input loop
    keeps the digits and colons, the first 15 of them, in the buffer in
    order, [NUL] after them, and echoes exactly these to the terminal;
    every other character, and every one after the fifteenth, is dropped
    without an echo. *)
Theorem typed_text_in_buffer (received : list ascii) (w : App.World) :
  Forall (fun c => type (App.U2RX_classify c) = UART_CMD_CHAR) received ->
  let kept := firstn 15 (filter Trace.accepted received) in
  runState (App.enter_time received) w
  = (App.mkInputLocals (kept ++ repeat App.NUL (16 - List.length kept))
                       (List.length kept) false,
     App.set_terminal
       (App.terminal w ++ map (fun c => String c EmptyString) kept) w).
Proof.
  intros F. apply (typed_onto received [] w F). cbn. lia.
Qed.

Lemma typed_text_in_buffer_witness :
  runState (App.enter_time (Scenario.typed "1x2:3 4")) Scenario.entering_time
  = (App.mkInputLocals (Scenario.typed "12:34" ++ repeat App.NUL 11) 5 false,
     App.set_terminal ["1"; "2"; ":"; "3"; "4"]%string
                      Scenario.entering_time).
Proof.
  apply (typed_text_in_buffer (Scenario.typed "1x2:3 4")
                              Scenario.entering_time).
  vm_compute. repeat constructor.
Defined.

Section Erasing.

Import App Trace.

Lemma run_backspace (c : ascii) (l : InputLocals) (w : World) :
  (0 < input_index l)%nat ->
  fst (runState (on_uart_cmd (mkUartCmd UART_CMD_BACKSPACE c) l) w)
  = mkInputLocals (store (pred (input_index l)) NUL (input_buffer l))
                  (pred (input_index l)) (got_valid_time l).
Proof.
  intros H. unfold on_uart_cmd. cbn [type].
  destruct (Nat.ltb_spec 0 (input_index l)) as [_ | K]; [| lia].
  cbv zeta. apply fst_run_then.
Qed.

Lemma run_char (c : ascii) (l : InputLocals) (w : World) :
  accepted c = true -> (input_index l < 15)%nat ->
  fst (runState (on_uart_cmd (mkUartCmd UART_CMD_CHAR c) l) w)
  = mkInputLocals
      (store (S (input_index l)) NUL
             (store (input_index l) c (input_buffer l)))
      (S (input_index l)) (got_valid_time l).
Proof.
  intros A H. unfold on_uart_cmd. cbn [type character].
  unfold accepted in A. rewrite A.
  destruct (Nat.ltb_spec (input_index l) (sizeof_input_buffer - 1))
    as [_ | K]; [| unfold sizeof_input_buffer in K; lia].
  cbv zeta. apply fst_run_then.
Qed.

End Erasing.

(** X14.  A digit or colon typed into a buffer with room is stored at the
    index, which moves up by one; BS or DEL received next puts the buffer
    and the index back exactly as they were. *)
Theorem backspace_undoes_character (c del : ascii) (l : App.InputLocals)
        (w w' : App.World) :
  Trace.buffer_ok l ->
  Trace.accepted c = true ->
  (App.input_index l < 15)%nat ->
  del = App.BS \/ del = App.DEL ->
  let l1 := fst (runState (App.on_uart_cmd (App.U2RX_classify c) l) w) in
  App.input_index l1 = S (App.input_index l)
  /\ nth (App.input_index l) (App.input_buffer l1) App.NUL = c
  /\ fst (runState (App.on_uart_cmd (App.U2RX_classify del) l1) w') = l.
Proof.
  intros (L & I & Z) A H D. cbv zeta.
  unfold App.sizeof_input_buffer in *.
  rewrite (accepted_is_char c A), (run_char c l w A H).
  assert (Ed : App.U2RX_classify del
               = mkUartCmd UART_CMD_BACKSPACE del)
    by (destruct D; subst del; reflexivity).
  rewrite Ed, run_backspace by (cbn; lia).
  destruct l as [buf k v]. cbn [App.input_buffer App.input_index
                                App.got_valid_time pred] in *.
  split; [reflexivity |].
  assert (L1 : List.length (App.store k c buf) = 16%nat)
    by (rewrite length_store; lia).
  assert (L2 : List.length (App.store (S k) App.NUL (App.store k c buf))
               = 16%nat)
    by (rewrite length_store; lia).
  split.
  - rewrite !nth_store by lia.
    destruct (Nat.eqb_spec k (S k)); [lia |].
    rewrite Nat.eqb_refl. reflexivity.
  - f_equal. apply (nth_ext _ _ App.NUL App.NUL).
    + rewrite length_store; lia.
    + intros j _. rewrite !nth_store by lia.
      destruct (Nat.eqb_spec j k) as [-> | N1];
        [symmetry; apply Z; lia |].
      destruct (Nat.eqb_spec j (S k)) as [-> | N2];
        [symmetry; apply Z; lia | reflexivity].
Qed.

Lemma backspace_undoes_character_witness :
  fst (runState (App.on_uart_cmd (App.U2RX_classify App.BS)
                   (Scenario.after_typing "12:")) Scenario.entering_time)
  = Scenario.after_typing "12".
Proof.
  refine (proj2 (proj2 (backspace_undoes_character
                          ":" App.BS (Scenario.after_typing "12")
                          Scenario.entering_time Scenario.entering_time
                          _ eq_refl _ (or_introl eq_refl)))).
  - vm_compute. split; [reflexivity | split; [lia |]].
    intros j Hj. do 16 (destruct j as [| j]; [reflexivity || lia |]).
    destruct j; reflexivity.
  - vm_compute. lia.
Defined.

Section ReadBack.

Import App Scenario.

Lemma reads_back_all st cs q p l1 t d :
  forallb
    (fun n : nat =>
       let r := runState
                  (enter_time (typed (FormatTime (Z.of_nat n)) ++ [CR]))
                  (mkWorld st cs q p l1 t d []) in
       got_valid_time (fst r)
       && (g_CountdownSeconds (snd r) =? Z.of_nat n)
       && match g_SystemState (snd r) with
          | STATE_READY => true
          | _ => false
          end)
    (seq 1 (Z.to_nat 5999)) = true.
Proof. vm_compute. reflexivity. Qed.

End ReadBack.

(** X15.  A time as the countdown displays it reads back as itself: for
    [0 < n < 6000], the text [FormatTime] makes of [n], typed at the
    prompt and followed by CR, is accepted and stores [n] in
    [g_CountdownSeconds], the state going to [STATE_READY] (the mutexes
    being free). *)
Theorem displayed_time_reads_back (n : Z) (w : App.World) :
  0 < n < 6000 ->
  App.contention w = [] ->
  let r := runState
             (App.enter_time (Scenario.typed (App.FormatTime n)
                              ++ [App.CR])) w in
  App.got_valid_time (fst r) = true
  /\ App.g_CountdownSeconds (snd r) = n
  /\ App.g_SystemState (snd r) = STATE_READY.
Proof.
  intros Hn Hc. destruct w as [st cs q p l1 t d c]. cbn in Hc. subst c.
  pose proof (reads_back_all st cs q p l1 t d) as R.
  rewrite forallb_forall in R.
  specialize (R (Z.to_nat n)).
  rewrite Z2Nat.id in R by lia.
  assert (I : In (Z.to_nat n) (seq 1 (Z.to_nat 5999)))
    by (apply in_seq; lia).
  specialize (R I). cbv zeta in R |- *.
  apply andb_prop in R. destruct R as [R R3].
  apply andb_prop in R. destruct R as [R1 R2].
  split; [exact R1 |]. split; [apply Z.eqb_eq, R2 |].
  destruct (App.g_SystemState _); try discriminate R3. reflexivity.
Qed.

Lemma displayed_time_reads_back_witness :
  App.g_CountdownSeconds
    (snd (runState (App.enter_time (Scenario.typed "59:59" ++ [App.CR]))
                   Scenario.entering_time)) = 3599.
Proof.
  refine (proj1 (proj2 (displayed_time_reads_back
                          3599 Scenario.entering_time _ eq_refl))).
  lia.
Defined.

(** * The countdown with the mutexes free *)

Section FreeRun.

Import App Scenario.

Lemma free_take st cs q p l1 t d :
  runState xSemaphoreTake (mkWorld st cs q p l1 t d [])
  = (true, mkWorld st cs q p l1 t d []).
Proof. reflexivity. Qed.

Lemma free_SafeDisp2String str st cs q p l1 t d :
  runState (SafeDisp2String str) (mkWorld st cs q p l1 t d [])
  = (tt, mkWorld st cs q p l1 (t ++ [str]) d []).
Proof. reflexivity. Qed.

Lemma free_write v st cs q p l1 t d :
  runState (write_SystemState v) (mkWorld st cs q p l1 t d [])
  = (tt, mkWorld v cs q p l1 t d []).
Proof. reflexivity. Qed.

Lemma run_in_pwm f st cs q p l1 t d c :
  runState (in_pwm f) (mkWorld st cs q p l1 t d c)
  = (tt, mkWorld st cs q (f p) l1 t d c).
Proof. reflexivity. Qed.

Lemma run_LED1 (b : bool) st cs q p l1 t d c :
  runState (if b then LED1_On else LED1_Off) (mkWorld st cs q p l1 t d c)
  = (tt, mkWorld st cs q p b t d c).
Proof. destruct b; reflexivity. Qed.

Lemma run_LED1_Off st cs q p l1 t d c :
  runState LED1_Off (mkWorld st cs q p l1 t d c)
  = (tt, mkWorld st cs q p false t d c).
Proof. reflexivity. Qed.

Lemma run_vTaskDelay ms st cs q p l1 t d c :
  runState (vTaskDelay ms) (mkWorld st cs q p l1 t d c)
  = (tt, mkWorld st cs q p l1 t (d + ms) c).
Proof. reflexivity. Qed.

Lemma run_read_time st cs q p l1 t d c :
  runState (bind get (fun w : World =>
              bind xSemaphoreGive (fun _ => ret (g_CountdownSeconds w))))
           (mkWorld st cs q p l1 t d c)
  = (cs, mkWorld st cs q p l1 t d c).
Proof. reflexivity. Qed.

Ltac free_step :=
  rewrite run_bind;
  first [ rewrite free_SafeDisp2String
        | rewrite free_write
        | rewrite free_take
        | rewrite run_in_pwm
        | rewrite run_LED1_Off
        | rewrite run_LED1
        | rewrite run_vTaskDelay ];
  cbn [fst snd].

(** A turn of the loop with the mutexes free. *)
Lemma countdown_turn_free remaining led st cs q p l1 t d :
  exists t',
    runState (countdown_turn remaining led) (mkWorld st cs q p l1 t d [])
    = ((uint16 (remaining - 1), negb led),
       mkWorld st cs q (PWM.PWM_SetOutputEnabled (negb led) p) (negb led)
               t' (d + 1000) []).
Proof.
  unfold countdown_turn. cbv zeta.
  do 7 free_step. rewrite run_ret. eexists. reflexivity.
Qed.

Lemma countdown_loop_free fuel :
  forall remaining led st cs q p l1 t d,
    0 <= remaining < 65536 ->
    (Z.to_nat remaining <= fuel)%nat ->
    exists led' p' l1' t',
      runState (countdown_loop fuel remaining led)
               (mkWorld st cs q p l1 t d [])
      = (Some (0, led'),
         mkWorld st cs q p' l1' t' (d + 1000 * remaining) []).
Proof.
  induction fuel as [| fuel IH]; intros remaining led st cs q p l1 t d R F;
    cbn [countdown_loop].
  - assert (remaining = 0) by lia. subst. cbn.
    exists led, p, l1, t. rewrite Z.add_0_r. reflexivity.
  - destruct (Z.gtb_spec remaining 0) as [G | G].
    + rewrite run_bind.
      destruct (countdown_turn_free remaining led st cs q p l1 t d)
        as (t1 & E1).
      rewrite E1. cbn [fst snd]. rewrite uint16_small by lia.
      destruct (IH (remaining - 1) (negb led) st cs q
                   (PWM.PWM_SetOutputEnabled (negb led) p) (negb led) t1
                   (d + 1000)) as (led' & p' & l1' & t' & E');
        [lia | lia |].
      rewrite E'. exists led', p', l1', t'. do 2 f_equal. lia.
    + assert (remaining = 0) by lia. subst. rewrite run_ret.
      exists led, p, l1, t. rewrite Z.add_0_r. reflexivity.
Qed.

(** A turn of the task with the mutexes free and a time stored. *)
Lemma vCountdownTask_turn_free led st cs q p l1 t d :
  0 < cs < 65536 ->
  exists led' p' t',
    runState (vCountdownTask_turn led) (mkWorld st cs q p l1 t d [])
    = (Some led',
       mkWorld STATE_WAITING cs q (PWM.PWM_Stop p') false t'
               (d + 1000 * cs) []).
Proof.
  intros R. unfold vCountdownTask_turn.
  free_step. rewrite run_bind, run_read_time. cbn [fst snd].
  destruct (Z.eqb_spec cs 0) as [-> | _]; [lia |].
  destruct (Z.gtb_spec cs 0) as [_ | G]; [| lia].
  do 13 free_step.
  rewrite run_bind.
  match goal with
  | |- context [runState (countdown_loop _ _ _)
                         (mkWorld _ _ _ ?p0 ?l0 ?t0 _ _)] =>
      destruct (countdown_loop_free (Z.to_nat cs) cs led st cs q
                                    p0 l0 t0 d)
        as (led' & p' & l1' & t' & E); [lia | lia |]
  end.
  rewrite E. cbn [fst snd].
  do 4 free_step. rewrite run_ret.
  eexists led', p', _. reflexivity.
Qed.

(** A turn of the task that finds no time: what it leaves. *)
Lemma vCountdownTask_turn_no_time led st cs q p l1 t d c :
  cs = 0 \/ hd true c = false ->
  exists t',
    runState (vCountdownTask_turn led) (mkWorld st cs q p l1 t d c)
    = (Some led,
       mkWorld (if nth 2 c true then STATE_WAITING else st) cs q p l1 t' d
               (skipn 3 c)).
Proof.
  intros H. unfold vCountdownTask_turn.
  destruct c as [| b1 [| b2 [| b3 rest]]];
    destruct H as [-> | H]; try discriminate H;
    repeat match goal with b : bool |- _ => destruct b end;
    try discriminate H;
    eexists; reflexivity.
Qed.

End FreeRun.

(** X16.  Started with a time of [n] seconds stored and the mutexes free,
    the countdown task returns after delays of exactly [1000 * n] ms in
    all, with [g_SystemState] at [STATE_WAITING], LED1 off, Timer2 stopped
    and LED2 off; the stored time is still [n], and the button queue is
    as it was. *)
Theorem countdown_runs_its_time (led1_on : bool) (w : App.World) :
  App.contention w = [] ->
  0 < App.g_CountdownSeconds w < 65536 ->
  let r := runState (App.vCountdownTask_turn led1_on) w in
  fst r <> None
  /\ App.delayed_ms (snd r)
     = App.delayed_ms w + 1000 * App.g_CountdownSeconds w
  /\ App.g_SystemState (snd r) = STATE_WAITING
  /\ App.LED1 (snd r) = false
  /\ PWM.T2CON_TON (App.pwm (snd r)) = false
  /\ PWM.LED2 (App.pwm (snd r)) = false
  /\ App.g_CountdownSeconds (snd r) = App.g_CountdownSeconds w
  /\ App.xButtonQueue (snd r) = App.xButtonQueue w.
Proof.
  destruct w as [st cs q p l1 t d c].
  cbn [App.contention App.g_CountdownSeconds App.delayed_ms
       App.xButtonQueue].
  intros -> R. cbv zeta.
  destruct (vCountdownTask_turn_free led1_on st cs q p l1 t d R)
    as (led' & p' & t' & E).
  rewrite E. destruct p' as [dc pc en ph ton ie led2].
  cbn. repeat split. discriminate.
Qed.

Lemma countdown_runs_its_time_witness :
  App.delayed_ms
    (snd (runState (App.vCountdownTask_turn false)
                   (Scenario.counting []))) = 3000.
Proof.
  refine (proj1 (proj2 (countdown_runs_its_time
                          false (Scenario.counting []) eq_refl _))).
  vm_compute. split; reflexivity.
Defined.

(** X17.  Started with no time stored, or when the countdown mutex is not
    obtained, the countdown task returns at once: no delay, LED1, the PWM
    module, the stored time and the button queue untouched, and
    [g_SystemState] at [STATE_WAITING] unless the state mutex is not
    obtained either. *)
Theorem countdown_without_time (led1_on : bool) (w : App.World) :
  App.g_CountdownSeconds w = 0 \/ hd true (App.contention w) = false ->
  let r := runState (App.vCountdownTask_turn led1_on) w in
  fst r = Some led1_on
  /\ App.delayed_ms (snd r) = App.delayed_ms w
  /\ App.LED1 (snd r) = App.LED1 w
  /\ App.pwm (snd r) = App.pwm w
  /\ App.g_CountdownSeconds (snd r) = App.g_CountdownSeconds w
  /\ App.xButtonQueue (snd r) = App.xButtonQueue w
  /\ App.g_SystemState (snd r)
     = if nth 2 (App.contention w) true
       then STATE_WAITING else App.g_SystemState w.
Proof.
  destruct w as [st cs q p l1 t d c].
  cbn [App.contention App.g_CountdownSeconds App.delayed_ms App.LED1
       App.pwm App.xButtonQueue App.g_SystemState].
  intros H. cbv zeta.
  destruct (vCountdownTask_turn_no_time led1_on st cs q p l1 t d c H)
    as (t' & E).
  rewrite E. cbn. repeat split.
Qed.

Lemma countdown_without_time_witness :
  fst (runState (App.vCountdownTask_turn true)
                (App.mkWorld STATE_COUNTDOWN 90 [] PWM.at_reset false [] 0
                             [false; true; false])) = Some true
  /\ App.delayed_ms
       (snd (runState (App.vCountdownTask_turn true)
               (App.mkWorld STATE_COUNTDOWN 90 [] PWM.at_reset false [] 0
                            [false; true; false]))) = 0.
Proof.
  destruct (countdown_without_time
              true
              (App.mkWorld STATE_COUNTDOWN 90 [] PWM.at_reset false [] 0
                           [false; true; false])
              (or_intror eq_refl)) as (H1 & H2 & _).
  split; [exact H1 | exact H2].
Defined.

(** * The waiting task *)

Section WaitingLoop.

Import App Waiting.

Lemma waiting_loop_step (n : nat) cs q p l1 t d c :
  runState (waiting_loop (S n)) (mkWorld STATE_WAITING cs q p l1 t d c)
  = if fst (runState waiting_turn (mkWorld STATE_WAITING cs q p l1 t d c))
    then (Some true,
          snd (runState waiting_turn
                        (mkWorld STATE_WAITING cs q p l1 t d c)))
    else runState (waiting_loop n)
                  (snd (runState waiting_turn
                          (mkWorld STATE_WAITING cs q p l1 t d c))).
Proof.
  cbn [waiting_loop]. rewrite run_bind.
  change (runState get (mkWorld STATE_WAITING cs q p l1 t d c))
    with (mkWorld STATE_WAITING cs q p l1 t d c,
          mkWorld STATE_WAITING cs q p l1 t d c).
  cbn [fst snd g_SystemState]. rewrite run_bind.
  destruct (fst (runState waiting_turn _)); reflexivity.
Qed.

Lemma turn_other e st cs q p l1 t d c :
  is_PB1_click e = false ->
  runState waiting_turn (mkWorld st cs (e :: q) p l1 t d c)
  = (false, mkWorld st cs q (update_pulse p) l1 t d c).
Proof.
  intros H. unfold waiting_turn. rewrite run_bind.
  change (runState (in_pwm update_pulse)
                   (mkWorld st cs (e :: q) p l1 t d c))
    with (tt, mkWorld st cs (e :: q) (update_pulse p) l1 t d c).
  cbn [fst snd]. rewrite run_bind.
  change (runState xQueueReceive
                   (mkWorld st cs (e :: q) (update_pulse p) l1 t d c))
    with (Some e, mkWorld st cs q (update_pulse p) l1 t d c).
  cbn [fst snd]. rewrite H. reflexivity.
Qed.

Lemma turn_empty st cs p l1 t d c :
  runState waiting_turn (mkWorld st cs [] p l1 t d c)
  = (false, mkWorld st cs [] (update_pulse p) l1 t d c).
Proof. reflexivity. Qed.

Lemma turn_click st cs q p l1 t d :
  runState waiting_turn
           (mkWorld st cs (Gesture.PB1_CLICK :: q) p l1 t d [])
  = (true,
     mkWorld STATE_TIME_INPUT cs q (PWM.PWM_Stop (update_pulse p))
             l1 t d []).
Proof. reflexivity. Qed.

(** The loop while no PB1 click comes. *)
Lemma waiting_loop_idle (turns : nat) cs q p l1 t d c :
  Forall (fun e => is_PB1_click e = false) q ->
  runState (waiting_loop turns) (mkWorld STATE_WAITING cs q p l1 t d c)
  = (None,
     mkWorld STATE_WAITING cs (skipn turns q)
             (Nat.iter turns update_pulse p) l1 t d c).
Proof.
  revert q p. induction turns as [| turns IH]; intros q p F.
  - reflexivity.
  - rewrite waiting_loop_step.
    destruct F as [| e q He F].
    + rewrite turn_empty. cbn [fst snd].
      rewrite IH by constructor.
      rewrite skipn_nil, <- Nat.iter_succ_r. reflexivity.
    + rewrite turn_other by exact He. cbn [fst snd].
      rewrite IH by exact F.
      rewrite <- Nat.iter_succ_r. reflexivity.
Qed.

(** [SafeDisp2String] touches the terminal and the coming takes only. *)
Lemma SafeDisp2String_shape str st cs q p l1 t d c :
  exists t' c',
    runState (SafeDisp2String str) (mkWorld st cs q p l1 t d c)
    = (tt, mkWorld st cs q p l1 t' d c').
Proof.
  rewrite SafeDisp2String_run. cbn [contention terminal].
  destruct c as [| [] rest]; eexists; eexists; reflexivity.
Qed.

(** The entry of the waiting loop: the pulse starts from the first entry
    of the table, 100 ms later. *)
Lemma waiting_entry_run st cs q p l1 t d c :
  exists t' c',
    runState waiting_entry (mkWorld st cs q p l1 t d c)
    = (tt,
       mkWorld st cs q
               (PWM.PWM_SetOutputEnabled true
                  (PWM.PWM_Start (PWM.PWM_ResetPulse p)))
               l1 t' (d + 100) c').
Proof.
  unfold waiting_entry. rewrite run_bind.
  change (runState (vTaskDelay 100) (mkWorld st cs q p l1 t d c))
    with (tt, mkWorld st cs q p l1 t (d + 100) c).
  cbn [fst snd].
  repeat match goal with
  | |- context [runState (bind (SafeDisp2String ?s) _)
                         (mkWorld ?st ?cs ?q ?p ?l1 ?t ?d ?c)] =>
      let t' := fresh "t" in
      let c' := fresh "c" in
      let E := fresh "E" in
      rewrite run_bind;
      destruct (SafeDisp2String_shape s st cs q p l1 t d c)
        as (t' & c' & E);
      rewrite E; clear E; cbn [fst snd]
  end.
  eexists; eexists; reflexivity.
Qed.

End WaitingLoop.

(** X18.  In [STATE_WAITING] with the state mutex free, the waiting loop
    takes one event from the button queue per turn and drops it, up to
    the first PB1 click; on that click it stops the PWM (Timer2 off, LED2
    off), sets [g_SystemState] to [STATE_TIME_INPUT] and leaves by its
    [break], the events behind the click still in the queue. *)
Theorem waiting_ends_at_first_pb1_click
        (before after : list ButtonEvent_t) (turns : nat) (w : App.World) :
  App.g_SystemState w = STATE_WAITING ->
  App.contention w = [] ->
  App.xButtonQueue w = before ++ Gesture.PB1_CLICK :: after ->
  Forall (fun e => Waiting.is_PB1_click e = false) before ->
  (List.length before < turns)%nat ->
  let r := runState (Waiting.waiting_loop turns) w in
  fst r = Some true
  /\ App.g_SystemState (snd r) = STATE_TIME_INPUT
  /\ App.xButtonQueue (snd r) = after
  /\ PWM.T2CON_TON (App.pwm (snd r)) = false
  /\ PWM.LED2 (App.pwm (snd r)) = false.
Proof.
  destruct w as [st cs q p l1 t d c].
  cbn [App.g_SystemState App.contention App.xButtonQueue].
  intros -> -> -> F. cbv zeta. revert turns p.
  induction F as [| e before He F IH]; intros turns p L.
  - destruct turns as [| turns]; [cbn in L; lia |].
    cbn [app]. rewrite waiting_loop_step, turn_click. cbn [fst snd].
    cbn [App.g_SystemState App.xButtonQueue App.pwm].
    repeat split; destruct (Waiting.update_pulse p); reflexivity.
  - destruct turns as [| turns]; [cbn in L; lia |].
    cbn [app]. rewrite waiting_loop_step, turn_other by exact He.
    cbn [fst snd]. apply IH. cbn in L. lia.
Qed.

Lemma waiting_ends_at_first_pb1_click_witness :
  App.xButtonQueue
    (snd (runState (Waiting.waiting_loop 3)
            (App.mkWorld STATE_WAITING 0
               [Gesture.PB3_CLICK; Gesture.COMBO_CLICK; Gesture.PB1_CLICK;
                Gesture.PB2_CLICK]
               PWM.at_reset false [] 0 [])))
  = [Gesture.PB2_CLICK].
Proof.
  refine (proj1 (proj2 (proj2
    (waiting_ends_at_first_pb1_click
       [Gesture.PB3_CLICK; Gesture.COMBO_CLICK] [Gesture.PB2_CLICK] 3
       (App.mkWorld STATE_WAITING 0
          [Gesture.PB3_CLICK; Gesture.COMBO_CLICK; Gesture.PB1_CLICK;
           Gesture.PB2_CLICK]
          PWM.at_reset false [] 0 [])
       eq_refl eq_refl eq_refl _ _)))).
  - repeat constructor.
  - simpl. lia.
Defined.

(** X19.  While no PB1 click comes, the waiting loop goes on: after any
    number of turns the task is still in the loop with [g_SystemState] at
    [STATE_WAITING], one event taken from the button queue and dropped
    per turn, the pulse updated once per turn, and nothing written to the
    terminal or delayed. *)
Theorem waiting_drops_other_events (turns : nat) (w : App.World) :
  App.g_SystemState w = STATE_WAITING ->
  Forall (fun e => Waiting.is_PB1_click e = false) (App.xButtonQueue w) ->
  runState (Waiting.waiting_loop turns) w
  = (None,
     App.mkWorld STATE_WAITING (App.g_CountdownSeconds w)
                 (skipn turns (App.xButtonQueue w))
                 (Nat.iter turns Waiting.update_pulse (App.pwm w))
                 (App.LED1 w) (App.terminal w) (App.delayed_ms w)
                 (App.contention w)).
Proof.
  destruct w as [st cs q p l1 t d c].
  cbn [App.g_SystemState App.contention App.xButtonQueue
       App.g_CountdownSeconds App.pwm App.LED1 App.terminal
       App.delayed_ms].
  intros -> F. apply waiting_loop_idle, F.
Qed.

Lemma waiting_drops_other_events_witness :
  App.xButtonQueue
    (snd (runState (Waiting.waiting_loop 2)
            (App.mkWorld STATE_WAITING 0
               [Gesture.PB3_CLICK; Gesture.COMBO_CLICK; Gesture.PB2_CLICK]
               PWM.at_reset false [] 0 [])))
  = [Gesture.PB2_CLICK].
Proof.
  rewrite (waiting_drops_other_events 2
             (App.mkWorld STATE_WAITING 0
                [Gesture.PB3_CLICK; Gesture.COMBO_CLICK; Gesture.PB2_CLICK]
                PWM.at_reset false [] 0 [])
             eq_refl).
  - reflexivity.
  - repeat constructor.
Defined.

(** X20.  Entered with the button queue empty, the waiting task starts
    the pulse 100 ms later, and while no event comes the brightness of
    LED2 follows the sine table: after [k] turns of the loop the phase is
    [655 * k] modulo 65536 (655 being 20 * 65536 / 2000 rounded down) and
    the duty cycle is the entry of the table at its top four bits, with
    Timer2 running and the output enabled. *)
Theorem waiting_pulse_follows_sine_table (k : nat) (w : App.World) :
  App.g_SystemState w = STATE_WAITING ->
  App.xButtonQueue w = [] ->
  let r := runState (bind Waiting.waiting_entry
                          (fun _ => Waiting.waiting_loop k)) w in
  let phase := uint16 (655 * Z.of_nat k) in
  fst r = None
  /\ PWM.pulse_phase (App.pwm (snd r)) = phase
  /\ PWM.pwm_duty_cycle (App.pwm (snd r))
     = nth (Z.to_nat (Z.shiftr phase 12)) PWM.sine_table 0
  /\ PWM.T2CON_TON (App.pwm (snd r)) = true
  /\ PWM.pwm_output_enabled (App.pwm (snd r)) = true
  /\ App.delayed_ms (snd r) = App.delayed_ms w + 100.
Proof.
  destruct w as [st cs q p l1 t d c].
  cbn [App.g_SystemState App.xButtonQueue App.delayed_ms].
  intros -> ->. cbv zeta. rewrite run_bind.
  destruct (waiting_entry_run STATE_WAITING cs [] p l1 t d c)
    as (t' & c' & E).
  rewrite E. cbn [fst snd].
  rewrite waiting_loop_idle by constructor.
  cbn [fst snd App.pwm App.delayed_ms].
  split; [reflexivity |].
  destruct k as [| k].
  - destruct p; cbn. repeat split.
  - rewrite waiting_pulse by lia.
    destruct p; cbn [PWM.pulse_phase PWM.pwm_duty_cycle PWM.T2CON_TON
                     PWM.pwm_output_enabled PWM.PWM_SetOutputEnabled
                     PWM.PWM_Start PWM.PWM_ResetPulse negb
                     PWM.set_pwm_output_enabled PWM.set_T2CON_TON
                     PWM.set_IEC0_T2IE PWM.set_pwm_counter
                     PWM.set_pulse_phase PWM.set_pwm_duty_cycle
                     PWM.pwm_counter PWM.IEC0_T2IE PWM.LED2].
    replace (0 + Z.of_nat (S k) * 655) with (655 * Z.of_nat (S k)) by lia.
    repeat split.
Qed.

Lemma waiting_pulse_follows_sine_table_witness :
  PWM.pwm_duty_cycle
    (App.pwm
       (snd (runState (bind Waiting.waiting_entry
                            (fun _ => Waiting.waiting_loop 51))
                      (App.mkWorld STATE_WAITING 0 [] PWM.at_reset
                                   false [] 0 [])))) = 100.
Proof.
  refine (proj1 (proj2 (proj2
    (waiting_pulse_follows_sine_table
       51 (App.mkWorld STATE_WAITING 0 [] PWM.at_reset false [] 0 [])
       eq_refl eq_refl)))).
Defined.

